(** * MonkeyCode socket handler: file-update reconciliation

    A shallow embedding of [backend/internal/socket/handler/socket.go].

    The handler receives Socket.IO events, decodes a [FileUpdateData]
    notification, acknowledges it at once and reconciles it against the
    workspace services on a goroutine of its own.  Everything the handler
    does to the outside is recorded: calls to the services ([calls]),
    messages written to connections ([out]), log lines ([logs]) and spawned
    goroutines ([goroutines]).  The services themselves are interface values
    and stay abstract: each method is an arbitrary function of the state of
    the outside world. *)

From Stdlib Require Import ZArith String Ascii List.
From stdpp Require Import base option gmap strings list.

Set Default Proof Using "Type".

(** ** Go values used by the handler *)

(** Go's [error] values.  [errors_New msg] stands for an error whose text is
    [msg] (also what [fmt.Errorf] gives for a format without verbs);
    [fmt_Errorf_w prefix err] is [fmt.Errorf(prefix + "%w", err)]. *)
Inductive error : Type :=
  | errors_New (msg : string)
  | fmt_Errorf_w (prefix : string) (err : error).

Fixpoint Error (e : error) : string :=
  match e with
  | errors_New msg => msg
  | fmt_Errorf_w prefix err => prefix +:+ Error err
  end.

(** A call returning [(T, error)]: either the error or the value. The
    handler dereferences the value whenever the error is nil, so a nil
    value with a nil error is outside the contract of the services. *)
Definition result (T : Type) : Type := (error + T)%type.

Module AckResponse.
Record t : Type := mk {
    ID      : string;
    Status  : string;
    Message : string;
  }.
End AckResponse.

Module TestPingData.
Record t : Type := mk {
    Timestamp : Z;
    Message   : string;
    SocketID  : string;
  }.
End TestPingData.

Module HeartbeatData.
Record t : Type := mk {
    Type_     : string;
    Timestamp : Z;
    ClientID  : string;
  }.
End HeartbeatData.

Module FileUpdateData.
Record t : Type := mk {
    ID            : string;
    FilePath      : string;
    Hash          : string;
    Event         : string;
    Content       : string;
    PreviousHash  : string;
    Timestamp     : Z;
    ApiKey        : string;
    WorkspacePath : string;
  }.

(** [var updateData FileUpdateData]: every field at its zero value. *)
Definition zero : t := mk "" "" "" "" "" "" 0%Z "" "".

(** Assignments to single fields, [updateData.ID = v] and the like. *)
Definition set_ID (v : string) (d : t) : t :=
  mk v (FilePath d) (Hash d) (Event d) (Content d) (PreviousHash d)
     (Timestamp d) (ApiKey d) (WorkspacePath d).
Definition set_FilePath (v : string) (d : t) : t :=
  mk (ID d) v (Hash d) (Event d) (Content d) (PreviousHash d)
     (Timestamp d) (ApiKey d) (WorkspacePath d).
Definition set_Hash (v : string) (d : t) : t :=
  mk (ID d) (FilePath d) v (Event d) (Content d) (PreviousHash d)
     (Timestamp d) (ApiKey d) (WorkspacePath d).
Definition set_Event (v : string) (d : t) : t :=
  mk (ID d) (FilePath d) (Hash d) v (Content d) (PreviousHash d)
     (Timestamp d) (ApiKey d) (WorkspacePath d).
Definition set_Content (v : string) (d : t) : t :=
  mk (ID d) (FilePath d) (Hash d) (Event d) v (PreviousHash d)
     (Timestamp d) (ApiKey d) (WorkspacePath d).
Definition set_Timestamp (v : Z) (d : t) : t :=
  mk (ID d) (FilePath d) (Hash d) (Event d) (Content d) (PreviousHash d)
     v (ApiKey d) (WorkspacePath d).
Definition set_ApiKey (v : string) (d : t) : t :=
  mk (ID d) (FilePath d) (Hash d) (Event d) (Content d) (PreviousHash d)
     (Timestamp d) v (WorkspacePath d).
Definition set_WorkspacePath (v : string) (d : t) : t :=
  mk (ID d) (FilePath d) (Hash d) (Event d) (Content d) (PreviousHash d)
     (Timestamp d) (ApiKey d) v.
End FileUpdateData.

(** The dynamic values that travel as [interface{}]: what the Socket.IO
    library hands to a handler as [data.Data[i]] and what the handler passes
    to [Ack] and [Emit].  A [float64] is kept as its 64-bit IEEE-754
    pattern. *)
#[warnings="-register-all"] Inductive any : Type :=
  | Nil
  | Bool (b : bool)
  | String_ (s : string)
  | Float64 (bits : Z)
  | Int64 (z : Z)
  | Slice (l : list any)
  | MapStringAny (m : gmap string any)
  | MapStringString (m : gmap string string)
  | Struct_AckResponse (a : AckResponse.t)
  | Struct_TestPingData (p : TestPingData.t).

(** [v, ok := x.(string)] and [v, ok := x.(float64)], where [x] is the
    result of indexing a map: a missing key gives the nil interface, for
    which every assertion fails. *)
Definition assert_string (x : option any) : option string :=
  match x with
  | Some (String_ s) => Some s
  | _ => None
  end.

Definition assert_float64 (x : option any) : option Z :=
  match x with
  | Some (Float64 bits) => Some bits
  | _ => None
  end.

(** ** The Socket.IO library, as far as the handler uses it *)

Module socketio.
Module Socket.
Record t : Type := mk { Id : string }.
End Socket.

(** [Ack] is the reply callback of the event, [None] when it is nil. The
    number identifies the callback in the record of outgoing messages. *)
Module EventPayload.
Record t : Type := mk {
    Data : list any;
    Ack  : option nat;
    }.
End EventPayload.
End socketio.

(** ** The domain package, as far as the handler uses it *)

Module domain.

(** Modelled from the spec: the declarations of package [domain] are not
    part of the sources at hand.  Each record lists the fields the handler
    reads or writes; [User.ID] holds [user.ID.String()]. *)
Module User.
Record t : Type := mk { ID : string }.
End User.

Module Workspace.
Record t : Type := mk { ID : string }.
End Workspace.

Module WorkspaceFile.
Record t : Type := mk { ID : string; Hash : string }.
End WorkspaceFile.

Module CreateWorkspaceFileReq.
Record t : Type := mk {
    Path        : string;
    Content     : string;
    Hash        : string;
    UserID      : string;
    WorkspaceID : string;
    }.
End CreateWorkspaceFileReq.

(** [Content] and [Hash] are pointers in the source; [None] is nil. *)
Module UpdateWorkspaceFileReq.
Record t : Type := mk {
    ID      : string;
    Content : option string;
    Hash    : option string;
    }.
End UpdateWorkspaceFileReq.

(** The language constants of the package are named, not spelled out: their
    string values are not in the sources at hand.  [CodeLanguageTypeLit s]
    is the conversion of the string literal [s]. *)
Inductive CodeLanguageType : Type :=
    | CodeLanguageTypeGo
    | CodeLanguageTypePython
    | CodeLanguageTypeJava
    | CodeLanguageTypeJavaScript
    | CodeLanguageTypeTypeScript
    | CodeLanguageTypeJSX
    | CodeLanguageTypeTSX
    | CodeLanguageTypeHTML
    | CodeLanguageTypeCSS
    | CodeLanguageTypePHP
    | CodeLanguageTypeRust
    | CodeLanguageTypeSwift
    | CodeLanguageTypeKotlin
    | CodeLanguageTypeC
    | CodeLanguageTypeCpp
    | CodeLanguageTypeLit (s : string).

Module FileMeta.
Record t : Type := mk {
    FilePath : string;
    Language : CodeLanguageType;
    Content  : string;
    }.
End FileMeta.

Module CodeFiles.
Record t : Type := mk { Files : list FileMeta.t }.
End CodeFiles.

Module GetAndSaveReq.
Record t : Type := mk {
    UserID      : string;
    WorkspaceID : string;
    FileMetas   : list FileMeta.t;
    }.
End GetAndSaveReq.

(** The three service interfaces.  [World] is the state of everything
    behind them (database, index, network); a method takes the world it is
    called in and returns the world it leaves. *)
Record UserUsecase (World : Type) : Type := {
    GetUserByApiKey : string -> World -> World * result User.t;
  }.

Record WorkspaceUsecase (World : Type) : Type := {
    EnsureWorkspace :
      string -> string -> string -> World -> World * result Workspace.t;
  }.

Record WorkspaceFileUsecase (World : Type) : Type := {
    GetByPath :
      string -> string -> string -> World -> World * result WorkspaceFile.t;
    Create :
    CreateWorkspaceFileReq.t -> World -> World * result WorkspaceFile.t;
    Update :
    UpdateWorkspaceFileReq.t -> World -> World * result WorkspaceFile.t;
    Delete : string -> World -> World * option error;
    GetAndSave : GetAndSaveReq.t -> World -> World * option error;
  }.

Arguments GetUserByApiKey {World} _ _ _.
Arguments EnsureWorkspace {World} _ _ _ _ _.
Arguments GetByPath {World} _ _ _ _ _.
Arguments Create {World} _ _ _.
Arguments Update {World} _ _ _.
Arguments Delete {World} _ _ _.
Arguments GetAndSave {World} _ _ _.
End domain.

(** ** What the handler does to the outside *)

(** One entry per call of a service method, with its arguments. *)
Inductive Call : Type :=
  | CallGetUserByApiKey (apiKey : string)
  | CallEnsureWorkspace (userID workspacePath name : string)
  | CallGetByPath (userID workspaceID path : string)
  | CallCreate (req : domain.CreateWorkspaceFileReq.t)
  | CallUpdate (req : domain.UpdateWorkspaceFileReq.t)
  | CallDelete (id : string)
  | CallGetAndSave (req : domain.GetAndSaveReq.t).

(** One entry per message written to a connection: [data.Ack(response)] or
    [socket.Emit(event, payload)]. *)
Inductive Emission : Type :=
  | AckReply (ack : nat) (response : any)
  | Emit (socket : socketio.Socket.t) (event : string) (payload : any).

Inductive Level : Type := LevelDebug | LevelError.

(** The calls of the Workspace Store on files. *)
Definition is_file_call (c : Call) : bool :=
  match c with
  | CallGetByPath _ _ _ | CallCreate _ | CallUpdate _ | CallDelete _
  | CallGetAndSave _ => true
  | _ => false
  end.

(** The calls that change stored files. *)
Definition is_mutation (c : Call) : bool :=
  match c with
  | CallCreate _ | CallUpdate _ | CallDelete _ => true
  | _ => false
  end.

Definition is_create (c : Call) : bool :=
  match c with
  | CallCreate _ => true
  | _ => false
  end.

(** Every call that reaches the Workspace Store: the file methods and
    ensure-or-create of the workspace. Identity resolution is not one. *)
Definition is_store_call (c : Call) : bool :=
  match c with
  | CallGetUserByApiKey _ => false
  | _ => true
  end.


(** ** The handler *)

Section Handler.

(** The state of everything outside the handler. *)
Variable World : Type.

(** Parts of the Go run time and of other packages that the handler calls
    and whose code is not at hand.  They stay parameters:
    - [int64_of_float64] is the conversion [int64(f)] of a [float64]
      (given by its bit pattern);
    - [db_IsNotFound] is [db.IsNotFound];
    - [json_Unmarshal_*] is [json.Unmarshal] into a value of the named
      struct type: the error, or the decoded struct;
    - [time_Now] reads the clock (milliseconds since the epoch) and
      [time_Format_RFC3339] is [Format(time.RFC3339)]. *)
Variable int64_of_float64 : Z -> Z.
Variable db_IsNotFound : error -> bool.
Variable json_Unmarshal_FileUpdateData : string -> result FileUpdateData.t.
Variable json_Unmarshal_TestPingData : string -> result TestPingData.t.
Variable json_Unmarshal_HeartbeatData : string -> result HeartbeatData.t.
Variable time_Now : World -> World * Z.
Variable time_Format_RFC3339 : Z -> string.

(** [SocketHandler].  The fields [config], [logger] and [io] are handles
    whose effects are recorded in the state below; the two locks [mu] and
    [cacheMutex] have no content in a sequential run. *)
Record SocketHandler : Type := {
  workspaceService : domain.WorkspaceFileUsecase World;
  workspaceUsecase : domain.WorkspaceUsecase World;
  userService      : domain.UserUsecase World;
  workspaceCache   : gmap string domain.Workspace.t;
}.

(** The state a method runs in: the outside world, the handler object [h]
    that every method receives by pointer, and the record of what has been
    done so far.  [goroutines] holds the started [processFileUpdateAsync]
    calls that have not run yet; [panicked] is set by a run-time panic. *)
Record State : Type := {
  world      : World;
  this       : SocketHandler;
  calls      : list Call;
  out        : list Emission;
  logs       : list (Level * string);
  goroutines : list (socketio.Socket.t * FileUpdateData.t);
  panicked   : bool;
}.

Definition M (A : Type) : Type := State -> State * A.

#[global] Instance M_ret : MRet M := fun A (a : A) st => (st, a).

#[global] Instance M_bind : MBind M :=
  fun A B (f : A -> M B) (c : M A) st => let (st', a) := c st in f a st'.

(** A call of a method of one of the services held by the handler [h]: the
    world moves on and the call is recorded. *)
Definition invoke {A : Type} (c : Call)
    (f : SocketHandler -> World -> World * A) : M A :=
  fun st =>
    let (w, r) := f (this st) (world st) in
    ({| world := w; this := this st; calls := calls st ++ [c];
        out := out st; logs := logs st; goroutines := goroutines st;
        panicked := panicked st |}, r).

(** [time.Now()]. *)
Definition now : M Z :=
  fun st =>
    let (w, t) := time_Now (world st) in
    ({| world := w; this := this st; calls := calls st;
        out := out st; logs := logs st; goroutines := goroutines st;
        panicked := panicked st |}, t).

(** A message written to a connection. *)
Definition send (e : Emission) : M unit :=
  fun st =>
    ({| world := world st; this := this st; calls := calls st;
        out := out st ++ [e]; logs := logs st; goroutines := goroutines st;
        panicked := panicked st |}, tt).

(** [h.logger.Debug(msg, ...)] and [h.logger.Error(msg, ...)]; the
    attributes of the line are not kept. *)
Definition log (lvl : Level) (msg : string) : M unit :=
  fun st =>
    ({| world := world st; this := this st; calls := calls st;
        out := out st; logs := logs st ++ [(lvl, msg)];
        goroutines := goroutines st; panicked := panicked st |}, tt).

(** [go h.processFileUpdateAsync(socket, updateData)]. *)
Definition go (socket : socketio.Socket.t) (updateData : FileUpdateData.t)
  : M unit :=
  fun st =>
    ({| world := world st; this := this st; calls := calls st;
        out := out st; logs := logs st;
        goroutines := goroutines st ++ [(socket, updateData)];
        panicked := panicked st |}, tt).

(** A run-time panic (index out of range). *)
Definition panic : M unit :=
  fun st =>
    ({| world := world st; this := this st; calls := calls st;
        out := out st; logs := logs st; goroutines := goroutines st;
        panicked := true |}, tt).

(** *** Helpers *)

(** The part of [s] after its last ['.'], if it has one. *)
Fixpoint after_last_dot (s : string) : option string :=
  match s with
  | EmptyString => None
  | String c rest =>
      match after_last_dot rest with
      | Some ext => Some ext
      | None => if Ascii.eqb c "." then Some rest else None
      end
  end.

(** [getFileExtension]: scanning from the end, the text after the first
    ['.'] met; the empty string when there is none. *)
Definition getFileExtension (filePath : string) : string :=
  match after_last_dot filePath with
  | Some ext => ext
  | None => ""
  end.

Definition getFileLanguage (fileExtension : string) : domain.CodeLanguageType :=
  if String.eqb fileExtension "go" then domain.CodeLanguageTypeGo
  else if String.eqb fileExtension "py" then domain.CodeLanguageTypePython
  else if String.eqb fileExtension "java" then domain.CodeLanguageTypeJava
  else if String.eqb fileExtension "js" then domain.CodeLanguageTypeJavaScript
  else if String.eqb fileExtension "ts" then domain.CodeLanguageTypeTypeScript
  else if String.eqb fileExtension "jsx" then domain.CodeLanguageTypeJSX
  else if String.eqb fileExtension "tsx" then domain.CodeLanguageTypeTSX
  else if String.eqb fileExtension "html" then domain.CodeLanguageTypeHTML
  else if String.eqb fileExtension "css" then domain.CodeLanguageTypeCSS
  else if String.eqb fileExtension "php" then domain.CodeLanguageTypePHP
  else if String.eqb fileExtension "rs" then domain.CodeLanguageTypeRust
  else if String.eqb fileExtension "swift" then domain.CodeLanguageTypeSwift
  else if String.eqb fileExtension "kt" then domain.CodeLanguageTypeKotlin
  else if String.eqb fileExtension "c" then domain.CodeLanguageTypeC
  else if String.eqb fileExtension "cpp" || String.eqb fileExtension "cc"
          || String.eqb fileExtension "cxx" then domain.CodeLanguageTypeCpp
  else domain.CodeLanguageTypeLit "".

(** [map[string]interface{}{"status": "error", "message": message}]. *)
Definition error_response (message : string) : any :=
  MapStringAny (<["status" := String_ "error"]>
               (<["message" := String_ message]> ∅)).

Definition sendErrorACK (data : socketio.EventPayload.t) (message : string)
  : M unit :=
  match socketio.EventPayload.Ack data with
  | Some ack => send (AckReply ack (error_response message))
  | None => mret tt
  end.

Definition sendACKWithLock (data : socketio.EventPayload.t) (response : any)
  : M unit :=
  match socketio.EventPayload.Ack data with
  | Some ack => send (AckReply ack response)
  | None => mret tt
  end.

(** The final-result message for [updateData]. *)
Definition finalResponse (updateData : FileUpdateData.t)
    (status message : string) : any :=
  MapStringAny (<["id" := String_ (FileUpdateData.ID updateData)]>
               (<["status" := String_ status]>
               (<["message" := String_ message]>
               (<["file" := String_ (FileUpdateData.FilePath updateData)]>
                  ∅)))).

Definition sendFinalResult (socket : socketio.Socket.t)
    (updateData : FileUpdateData.t) (status message : string) : M unit :=
  log LevelDebug "Sending final processing result" ;;
  send (Emit socket "file:update:ack"
          (finalResponse updateData status message)).

Definition sendServerStatus (socket : socketio.Socket.t)
    (status message : string) : M unit :=
  send (Emit socket "server:status"
          (MapStringString (<["status" := status]>
                           (<["message" := message]> ∅)))).

(** *** Reconciliation *)

(** [ensureWorkspace]: the identifier of the workspace at [workspacePath],
    created on demand by the service; [filePath] is not used. *)
Definition ensureWorkspace (userID workspacePath filePath : string)
  : M (result string) :=
  if negb (String.eqb workspacePath "") then
    r ← invoke (CallEnsureWorkspace userID workspacePath "")
          (fun h =>
             domain.EnsureWorkspace (workspaceUsecase h) userID workspacePath
               "");
    match r with
    | inl err =>
        log LevelError "Error ensuring workspace" ;;
        mret (inl (fmt_Errorf_w "failed to ensure workspace: " err))
    | inr workspace => mret (inr (domain.Workspace.ID workspace))
    end
  else
    mret (inl (errors_New "no workspace path provided")).

(** [processFileUpdateAsync]: the body of the goroutine started for one
    notification.  The [switch] computes [finalStatus] and [message]; the two
    early exits send their result themselves. *)
Definition processFileUpdateAsync (socket : socketio.Socket.t)
    (updateData : FileUpdateData.t) : M unit :=
  r ← invoke (CallGetUserByApiKey (FileUpdateData.ApiKey updateData))
        (fun h => domain.GetUserByApiKey (userService h)
           (FileUpdateData.ApiKey updateData));
  match r with
  | inl err =>
      log LevelError "Failed to get user by API key" ;;
      sendFinalResult socket updateData "error"
        ("Invalid API key: " +:+ Error err)
  | inr user =>
      let userID := domain.User.ID user in
      r ← ensureWorkspace userID (FileUpdateData.WorkspacePath updateData)
            (FileUpdateData.FilePath updateData);
      match r with
      | inl err =>
          log LevelError "Failed to ensure workspace" ;;
          sendFinalResult socket updateData "error"
            ("Failed to ensure workspace: " +:+ Error err)
      | inr workspaceID =>
          '(finalStatus, message) ←
            (if String.eqb (FileUpdateData.Event updateData) "initial_scan"
                || String.eqb (FileUpdateData.Event updateData) "added"
             then
               r ← invoke
                     (CallGetByPath userID workspaceID
                        (FileUpdateData.FilePath updateData))
                     (fun h =>
                        domain.GetByPath (workspaceService h) userID
                          workspaceID (FileUpdateData.FilePath updateData));
               match r with
               | inl err =>
                   if db_IsNotFound err then
                     let createReq :=
                       domain.CreateWorkspaceFileReq.mk
                         (FileUpdateData.FilePath updateData)
                         (FileUpdateData.Content updateData)
                         (FileUpdateData.Hash updateData)
                         userID workspaceID in
                     r ← invoke (CallCreate createReq)
                           (fun h =>
                              domain.Create (workspaceService h) createReq);
                     match r with
                     | inl createErr =>
                         log LevelError "Failed to create file" ;;
                         mret ("error",
                               "Failed to create file: " +:+ Error createErr)
                     | inr _ =>
                         let fileExtension :=
                           getFileExtension
                             (FileUpdateData.FilePath updateData) in
                         let codeFiles :=
                           domain.CodeFiles.mk
                             [domain.FileMeta.mk
                                (FileUpdateData.FilePath updateData)
                                (getFileLanguage fileExtension)
                                (FileUpdateData.Content updateData)] in
                         let getAndSaveReq :=
                           domain.GetAndSaveReq.mk userID workspaceID
                             (domain.CodeFiles.Files codeFiles) in
                         err ← invoke (CallGetAndSave getAndSaveReq)
                                 (fun h =>
                                    domain.GetAndSave (workspaceService h)
                                      getAndSaveReq);
                         match err with
                         | Some _ =>
                             log LevelDebug
                               "Failed to process file with GetAndSave"
                         | None => mret tt
                         end ;;
                         log LevelDebug "File created successfully" ;;
                         mret ("success", "File created successfully")
                     end
                   else
                     log LevelError "Error checking for existing file" ;;
                     mret ("error",
                           "Error checking for existing file: " +:+ Error err)
               | inr existingFile =>
                   if String.eqb (domain.WorkspaceFile.Hash existingFile)
                        (FileUpdateData.Hash updateData)
                   then
                     log LevelDebug "Skipping update for unchanged file" ;;
                     mret ("success", "File is already up-to-date")
                   else
                     let updateReq :=
                       domain.UpdateWorkspaceFileReq.mk
                         (domain.WorkspaceFile.ID existingFile)
                         (Some (FileUpdateData.Content updateData))
                         (Some (FileUpdateData.Hash updateData)) in
                     r ← invoke (CallUpdate updateReq)
                           (fun h =>
                              domain.Update (workspaceService h) updateReq);
                     match r with
                     | inl updateErr =>
                         log LevelError "Failed to update existing file" ;;
                         mret ("error",
                               "Failed to update existing file: "
                                 +:+ Error updateErr)
                     | inr _ =>
                         log LevelDebug "File updated successfully" ;;
                         mret ("success", "File updated successfully")
                     end
               end
             else if String.eqb (FileUpdateData.Event updateData) "modified"
             then
               r ← invoke
                     (CallGetByPath userID workspaceID
                        (FileUpdateData.FilePath updateData))
                     (fun h =>
                        domain.GetByPath (workspaceService h) userID
                          workspaceID (FileUpdateData.FilePath updateData));
               match r with
               | inl err =>
                   log LevelError "Failed to find file for update" ;;
                   mret ("error",
                         "Failed to find file for update: " +:+ Error err)
               | inr file =>
                   let req :=
                     domain.UpdateWorkspaceFileReq.mk
                       (domain.WorkspaceFile.ID file)
                       (Some (FileUpdateData.Content updateData))
                       (Some (FileUpdateData.Hash updateData)) in
                   r ← invoke (CallUpdate req)
                         (fun h => domain.Update (workspaceService h) req);
                   match r with
                   | inl err =>
                       log LevelError "Failed to update file" ;;
                       mret ("error", "Failed to update file: " +:+ Error err)
                   | inr _ =>
                       log LevelDebug "File updated successfully" ;;
                       let fileExtension :=
                         getFileExtension
                           (FileUpdateData.FilePath updateData) in
                       let codeFiles :=
                         domain.CodeFiles.mk
                           [domain.FileMeta.mk
                              (FileUpdateData.FilePath updateData)
                              (getFileLanguage fileExtension)
                              (FileUpdateData.Content updateData)] in
                       let getAndSaveReq :=
                         domain.GetAndSaveReq.mk userID workspaceID
                           (domain.CodeFiles.Files codeFiles) in
                       err ← invoke (CallGetAndSave getAndSaveReq)
                               (fun h => domain.GetAndSave (workspaceService h)
                                  getAndSaveReq);
                       match err with
                       | Some _ =>
                           log LevelDebug
                             "Failed to process file with GetAndSave"
                       | None => mret tt
                       end ;;
                       mret ("success", "File updated successfully")
                   end
               end
             else if String.eqb (FileUpdateData.Event updateData) "deleted"
             then
               r ← invoke
                     (CallGetByPath userID workspaceID
                        (FileUpdateData.FilePath updateData))
                     (fun h =>
                        domain.GetByPath (workspaceService h) userID
                          workspaceID (FileUpdateData.FilePath updateData));
               match r with
               | inl err =>
                   log LevelError "Failed to find file for deletion" ;;
                   mret ("error",
                         "Failed to find file for deletion: " +:+ Error err)
               | inr file =>
                   err ← invoke (CallDelete (domain.WorkspaceFile.ID file))
                           (fun h => domain.Delete (workspaceService h)
                              (domain.WorkspaceFile.ID file));
                   match err with
                   | Some err =>
                       log LevelError "Failed to delete file" ;;
                       mret ("error", "Failed to delete file: " +:+ Error err)
                   | None =>
                       log LevelDebug "File deleted successfully" ;;
                       mret ("success", "File deleted successfully")
                   end
               end
             else
               mret ("error",
                     "Unknown event type: "
                       +:+ FileUpdateData.Event updateData));
          sendFinalResult socket updateData finalStatus message
      end
  end.

(** *** Decoding and the immediate acknowledgement *)

(** [AckResponse{ID: id, Status: "received", Message: ...}]. *)
Definition immediateAck (updateData : FileUpdateData.t) : any :=
  Struct_AckResponse
    (AckResponse.mk (FileUpdateData.ID updateData) "received"
       "File update received, processing...").

(** [handleFileUpdate]: the payload is a string holding a JSON document. *)
Definition handleFileUpdate (socket : socketio.Socket.t) (data : string)
  : M any :=
  match json_Unmarshal_FileUpdateData data with
  | inl err =>
      log LevelError "Failed to parse file update data" ;;
      mret (error_response "Invalid data format")
  | inr updateData =>
      log LevelDebug "Processing file update" ;;
      go socket updateData ;;
      mret (immediateAck updateData)
  end.

(** [handleFileUpdateFromObject]: the payload is a decoded map.  The fields
    are taken one by one with a type assertion; a field that is missing or
    of another type keeps its zero value. *)
Definition handleFileUpdateFromObject (socket : socketio.Socket.t)
    (data : socketio.EventPayload.t) : M any :=
  match socketio.EventPayload.Data data with
  | [] =>
      log LevelError "No data provided for file update" ;;
      mret (Struct_AckResponse (AckResponse.mk "" "error" "No data provided"))
  | MapStringAny dataMap :: _ =>
      let updateData := FileUpdateData.zero in
      let updateData :=
        match assert_string (dataMap !! "id") with
        | Some id => FileUpdateData.set_ID id updateData
        | None => updateData
        end in
      let updateData :=
        match assert_string (dataMap !! "filePath") with
        | Some filePath => FileUpdateData.set_FilePath filePath updateData
        | None => updateData
        end in
      let updateData :=
        match assert_string (dataMap !! "event") with
        | Some event => FileUpdateData.set_Event event updateData
        | None => updateData
        end in
      let updateData :=
        match assert_string (dataMap !! "hash") with
        | Some hash => FileUpdateData.set_Hash hash updateData
        | None => updateData
        end in
      let updateData :=
        match assert_string (dataMap !! "content") with
        | Some content => FileUpdateData.set_Content content updateData
        | None => updateData
        end in
      let updateData :=
        match assert_float64 (dataMap !! "timestamp") with
        | Some timestamp =>
            FileUpdateData.set_Timestamp (int64_of_float64 timestamp)
              updateData
        | None => updateData
        end in
      let updateData :=
        match assert_string (dataMap !! "apiKey") with
        | Some apiKey => FileUpdateData.set_ApiKey apiKey updateData
        | None => updateData
        end in
      let updateData :=
        match assert_string (dataMap !! "workspacePath") with
        | Some workspacePath =>
            FileUpdateData.set_WorkspacePath workspacePath updateData
        | None => updateData
        end in
      log LevelDebug "Processing file update" ;;
      go socket updateData ;;
      mret (immediateAck updateData)
  | _ :: _ =>
      log LevelError "Invalid data format for file update" ;;
      mret (Struct_AckResponse
              (AckResponse.mk "" "error" "Invalid data format"))
  end.

(** [processFileUpdateData]: the type switch on [data.Data[0]].  On an empty
    [data.Data] the index expression panics; the only caller has excluded
    that. *)
Definition processFileUpdateData (socket : socketio.Socket.t)
    (data : socketio.EventPayload.t) : M unit :=
  match socketio.EventPayload.Data data with
  | [] => panic
  | MapStringAny _ :: _ =>
      response ← handleFileUpdateFromObject socket data;
      sendACKWithLock data response
  | String_ v :: _ =>
      response ← handleFileUpdate socket v;
      sendACKWithLock data response
  | _ :: _ =>
      log LevelError "Data is neither string nor object" ;;
      sendErrorACK data "Invalid data format - expected string or object"
  end.

(** *** Liveness *)

Definition handleTestPing (socket : socketio.Socket.t) (data : string)
  : M unit :=
  match json_Unmarshal_TestPingData data with
  | inl err => log LevelError "Failed to parse test ping data"
  | inr pingData =>
      log LevelDebug "Received test ping" ;;
      t1 ← now;
      t2 ← now;
      let pongData :=
        MapStringAny
          (<["timestamp" := Int64 t1]>
          (<["serverTime" := String_ (time_Format_RFC3339 t2)]>
          (<["message" := String_ "Pong from MonkeyCode server"]>
          (<["receivedPing" := Struct_TestPingData pingData]>
          (<["socketId" := String_ (socketio.Socket.Id socket)]>
          (<["serverStatus" := String_ "ok"]> ∅)))))) in
      send (Emit socket "test:pong" pongData)
  end.

Definition handleHeartbeat (socket : socketio.Socket.t) (data : string)
  : M any :=
  match json_Unmarshal_HeartbeatData data with
  | inl err =>
      log LevelError "Failed to parse heartbeat data" ;;
      mret (MapStringAny (<["status" := String_ "error"]>
                         (<["message" := String_ "Invalid heartbeat data"]> ∅)))
  | inr heartbeatData =>
      log LevelDebug "Heartbeat received" ;;
      t ← now;
      mret (MapStringAny (<["status" := String_ "ok"]>
                         (<["serverTime" := Int64 t]>
                         (<["socketId" := String_ (socketio.Socket.Id socket)]>
                            ∅))))
  end.

(** *** The handlers registered on a connection

    Each [register*Handler socket] is given as the closure it registers. *)

Definition registerDisconnectHandler (socket : socketio.Socket.t)
    (data : socketio.EventPayload.t) : M unit :=
  log LevelDebug "Client disconnected".

Definition registerFileUpdateHandler (socket : socketio.Socket.t)
    (data : socketio.EventPayload.t) : M unit :=
  log LevelDebug "Received file:update event" ;;
  match socketio.EventPayload.Data data with
  | [] => sendErrorACK data "No data provided"
  | _ :: _ => processFileUpdateData socket data
  end.

Definition registerTestPingHandler (socket : socketio.Socket.t)
    (data : socketio.EventPayload.t) : M unit :=
  log LevelDebug "Received test:ping event" ;;
  match socketio.EventPayload.Data data with
  | String_ dataStr :: _ => handleTestPing socket dataStr
  | _ => mret tt
  end.

Definition registerHeartbeatHandler (socket : socketio.Socket.t)
    (data : socketio.EventPayload.t) : M unit :=
  match socketio.EventPayload.Data data with
  | [] => sendErrorACK data "No heartbeat data"
  | String_ dataStr :: _ =>
      response ← handleHeartbeat socket dataStr;
      log LevelDebug "Sending heartbeat ACK" ;;
      match socketio.EventPayload.Ack data with
      | Some ack => send (AckReply ack response)
      | None => mret tt
      end
  | _ :: _ => mret tt
  end.

Definition registerWorkspaceStatsHandler (socket : socketio.Socket.t)
    (data : socketio.EventPayload.t) : M unit :=
  log LevelDebug "Received workspace:stats event" ;;
  let response :=
    MapStringAny
      (<["status" := String_ "not_implemented"]>
      (<["message" :=
           String_ "Workspace stats functionality is not available."]> ∅)) in
  log LevelDebug "Sending workspace stats ACK" ;;
  match socketio.EventPayload.Ack data with
  | Some ack => send (AckReply ack response)
  | None => mret tt
  end.

(** [handleConnection]: greets the new connection.  The registrations it
    makes are the table [on] below. *)
Definition handleConnection (socket : socketio.Socket.t) : M unit :=
  log LevelDebug "Client connected" ;;
  sendServerStatus socket "ready" "Server is ready to receive updates".

(** The handler registered on [socket] for the event called [name]; the
    library drops an event nobody has registered for. *)
Definition on (socket : socketio.Socket.t) (name : string)
    (data : socketio.EventPayload.t) : M unit :=
  if String.eqb name "disconnect" then registerDisconnectHandler socket data
  else if String.eqb name "file:update" then
    registerFileUpdateHandler socket data
  else if String.eqb name "test:ping" then registerTestPingHandler socket data
  else if String.eqb name "heartbeat" then registerHeartbeatHandler socket data
  else if String.eqb name "workspace:stats" then
    registerWorkspaceStatsHandler socket data
  else mret tt.

(** *** The handler at work *)

(** [NewSocketHandler]: the handler object, with an empty workspace cache. *)
Definition NewSocketHandler
    (workspaceService : domain.WorkspaceFileUsecase World)
    (workspaceUsecase : domain.WorkspaceUsecase World)
    (userService : domain.UserUsecase World) : SocketHandler :=
  {| workspaceService := workspaceService;
     workspaceUsecase := workspaceUsecase;
     userService := userService;
     workspaceCache := ∅ |}.

(** The state right after construction, in the world [w]. *)
Definition boot (h : SocketHandler) (w : World) : State :=
  {| world := w; this := h; calls := []; out := []; logs := [];
     goroutines := []; panicked := false |}.

(** What can happen next: a client connects, an event arrives on a
    connection, or the scheduler runs the [n]-th waiting goroutine.  A
    goroutine runs to its end once started, and in a sequence of these
    steps it runs after the handler that started it has returned.  The
    source starts the goroutine before the handler writes its reply and
    does not order the two; the run in which the goroutine comes first is
    written out where it matters, as [schedule] between the decoding step
    and [sendACKWithLock]. *)
Inductive Incoming : Type :=
  | Connect (socket : socketio.Socket.t)
  | Event (socket : socketio.Socket.t) (name : string)
      (data : socketio.EventPayload.t)
  | Schedule (n : nat).

(** The [n]-th waiting goroutine is taken off the list and run. *)
Definition schedule (n : nat) : M unit :=
  fun st =>
    match goroutines st !! n with
    | Some (socket, updateData) =>
        processFileUpdateAsync socket updateData
          {| world := world st; this := this st; calls := calls st;
             out := out st; logs := logs st;
             goroutines := take n (goroutines st) ++ drop (S n) (goroutines st);
             panicked := panicked st |}
    | None => (st, tt)
    end.

Definition handle (i : Incoming) : M unit :=
  match i with
  | Connect socket => handleConnection socket
  | Event socket name data => on socket name data
  | Schedule n => schedule n
  end.

Fixpoint run (events : list Incoming) : M unit :=
  match events with
  | [] => mret tt
  | i :: events => handle i ;; run events
  end.

End Handler.

Arguments world {World} _.
Arguments this {World} _.
Arguments calls {World} _.
Arguments out {World} _.
Arguments logs {World} _.
Arguments goroutines {World} _.
Arguments panicked {World} _.
Arguments workspaceService {World} _.
Arguments workspaceUsecase {World} _.
Arguments userService {World} _.
Arguments workspaceCache {World} _.
Arguments M_ret {World} _ _ _.
Arguments M_bind {World} _ _ _ _ _.
Arguments invoke {World A} _ _ _.
Arguments send {World} _ _.
Arguments log {World} _ _ _.
Arguments go {World} _ _ _.
Arguments panic {World} _.
Arguments sendErrorACK {World} _ _ _.
Arguments sendACKWithLock {World} _ _ _.
Arguments sendFinalResult {World} _ _ _ _ _.
Arguments sendServerStatus {World} _ _ _ _.
Arguments ensureWorkspace {World} _ _ _ _.
Arguments processFileUpdateAsync {World} _ _ _ _.
Arguments handleFileUpdate {World} _ _ _ _.
Arguments handleFileUpdateFromObject {World} _ _ _ _.
Arguments processFileUpdateData {World} _ _ _ _ _.
Arguments registerFileUpdateHandler {World} _ _ _ _ _.
Arguments NewSocketHandler {World} _ _ _.
Arguments boot {World} _ _.
Arguments schedule {World} _ _ _.
Arguments on {World} _ _ _ _ _ _ _ _ _ _.
Arguments handle {World} _ _ _ _ _ _ _ _ _.
Arguments run {World} _ _ _ _ _ _ _ _ _.

(** ** JSON documents, to run the handler on real text

    The handler takes [json.Unmarshal] as a parameter.  To run it on real
    documents, this module gives a decoder written after the documentation
    of Go's [encoding/json]: the text is checked against the JSON grammar as
    a whole, then the members of the top-level object are assigned to the
    fields of [FileUpdateData] by their names.  The text of the errors is
    not that of the library. *)

Module Json.

#[warnings="-register-all"] Inductive value : Type :=
  | Null
  | Boolean (b : bool)
  | Number (lexeme : string)
  | Text (s : string)
  | Array (elements : list value)
  | Object (members : list (string * value)).

Definition quote : ascii := "034"%char.

Definition backslash : ascii := "092"%char.

Definition is_space (c : ascii) : bool :=
  Ascii.eqb c " " || Ascii.eqb c "009" || Ascii.eqb c "010"
  || Ascii.eqb c "013".

Definition is_digit (c : ascii) : bool :=
  (48 <=? nat_of_ascii c)%nat && (nat_of_ascii c <=? 57)%nat.

Fixpoint skip_space (s : string) : string :=
  match s with
  | String c rest => if is_space c then skip_space rest else s
  | EmptyString => s
  end.

(** The leading digits of [s], and what follows them. *)
Fixpoint digits (s : string) : string * string :=
  match s with
  | String c rest =>
      if is_digit c then
        let (ds, rest') := digits rest in (String c ds, rest')
      else ("", s)
  | EmptyString => ("", s)
  end.

(** A number: an optional minus sign, an integer part without a leading
    zero (unless it is zero), an optional fraction and an optional
    exponent; its lexeme, and what follows it. *)
Definition number (s : string) : option (string * string) :=
  let (sign, s1) :=
    match s with
    | String c rest => if Ascii.eqb c "-" then ("-", rest) else ("", s)
    | EmptyString => ("", s)
    end in
  let (int, s2) := digits s1 in
  let int_ok :=
    match int with
    | EmptyString => false
    | String c EmptyString => true
    | String c _ => negb (Ascii.eqb c "0")
    end in
  if negb int_ok then None
  else
    let frac :=
      match s2 with
      | String c rest =>
          if Ascii.eqb c "." then
            let (ds, rest') := digits rest in
            match ds with
            | EmptyString => None
            | _ => Some ("." +:+ ds, rest')
            end
          else Some ("", s2)
      | EmptyString => Some ("", s2)
      end in
    match frac with
    | None => None
    | Some (f, s3) =>
        let exp :=
          match s3 with
          | String c rest =>
              if Ascii.eqb c "e" || Ascii.eqb c "E" then
                let (esign, rest1) :=
                  match rest with
                  | String c' rest' =>
                      if Ascii.eqb c' "+" || Ascii.eqb c' "-"
                      then (String c' "", rest') else ("", rest)
                  | EmptyString => ("", rest)
                  end in
                let (ds, rest2) := digits rest1 in
                match ds with
                | EmptyString => None
                | _ => Some (String c esign +:+ ds, rest2)
                end
              else Some ("", s3)
          | EmptyString => Some ("", s3)
          end in
        match exp with
        | None => None
        | Some (e, s4) => Some (sign +:+ int +:+ f +:+ e, s4)
        end
    end.

Definition hex (c : ascii) : option N :=
  let n := N_of_ascii c in
  if (48 <=? n)%N && (n <=? 57)%N then Some (n - 48)%N
  else if (65 <=? n)%N && (n <=? 70)%N then Some (n - 55)%N
  else if (97 <=? n)%N && (n <=? 102)%N then Some (n - 87)%N
  else None.

Definition hex4 (a b c d : ascii) : option N :=
  match hex a, hex b, hex c, hex d with
  | Some a, Some b, Some c, Some d => Some (((a * 16 + b) * 16 + c) * 16 + d)%N
  | _, _, _, _ => None
  end.

(** The UTF-8 bytes of a code point. *)
Definition utf8 (cp : N) : string :=
  let byte n := ascii_of_N n in
  if (cp <? 128)%N then String (byte cp) ""
  else if (cp <? 2048)%N then
    String (byte (192 + cp / 64)%N) (String (byte (128 + cp mod 64)%N) "")
  else if (cp <? 65536)%N then
    String (byte (224 + cp / 4096)%N)
      (String (byte (128 + (cp / 64) mod 64)%N)
         (String (byte (128 + cp mod 64)%N) ""))
  else
    String (byte (240 + cp / 262144)%N)
      (String (byte (128 + (cp / 4096) mod 64)%N)
         (String (byte (128 + (cp / 64) mod 64)%N)
            (String (byte (128 + cp mod 64)%N) ""))).

Definition is_high (cp : N) : bool := (55296 <=? cp)%N && (cp <? 56320)%N.

Definition is_low (cp : N) : bool := (56320 <=? cp)%N && (cp <? 57344)%N.

(** The characters of a string up to its closing quote, escapes resolved,
    and what follows the quote.  A surrogate without its partner becomes
    U+FFFD; a control character is a syntax error. *)
Fixpoint text (s : string) : option (string * string) :=
  match s with
  | EmptyString => None
  | String c rest =>
      if Ascii.eqb c quote then Some ("", rest)
      else if Ascii.eqb c backslash then
        match rest with
        | EmptyString => None
        | String e rest1 =>
            let plain (b : ascii) :=
              match text rest1 with
              | Some (t, after) => Some (String b t, after)
              | None => None
              end in
            if Ascii.eqb e quote then plain quote
            else if Ascii.eqb e backslash then plain backslash
            else if Ascii.eqb e "/" then plain "/"%char
            else if Ascii.eqb e "b" then plain "008"%char
            else if Ascii.eqb e "f" then plain "012"%char
            else if Ascii.eqb e "n" then plain "010"%char
            else if Ascii.eqb e "r" then plain "013"%char
            else if Ascii.eqb e "t" then plain "009"%char
            else if Ascii.eqb e "u" then
              match rest1 with
              | String h1 (String h2 (String h3 (String h4 rest2))) =>
                  match hex4 h1 h2 h3 h4 with
                  | None => None
                  | Some cp =>
                      let single (cp : N) :=
                        match text rest2 with
                        | Some (t, after) => Some (utf8 cp +:+ t, after)
                        | None => None
                        end in
                      if is_high cp then
                        match rest2 with
                        | String b1 (String u1 (String l1 (String l2
                            (String l3 (String l4 rest3))))) =>
                            match hex4 l1 l2 l3 l4 with
                            | Some lo =>
                                if Ascii.eqb b1 backslash && Ascii.eqb u1 "u"
                                   && is_low lo
                                then
                                  match text rest3 with
                                  | Some (t, after) =>
                                      Some (utf8 (65536 + (cp - 55296) * 1024
                                                  + (lo - 56320))%N
                                              +:+ t, after)
                                  | None => None
                                  end
                                else single 65533%N
                            | None => single 65533%N
                            end
                        | _ => single 65533%N
                        end
                      else if is_low cp then single 65533%N
                      else single cp
                  end
              | _ => None
              end
            else None
        end
      else if (nat_of_ascii c <? 32)%nat then None
      else
        match text rest with
        | Some (t, after) => Some (String c t, after)
        | None => None
        end
  end.

Definition literal (word : string) (v : value) (s : string)
  : option (value * string) :=
  if String.prefix word s
  then Some (v, String.substring (String.length word)
                  (String.length s - String.length word) s)
  else None.

(** A value, the elements of an array after its bracket, the members of an
    object after its brace.  [fuel] bounds the depth of the calls. *)
Fixpoint parse_value (fuel : nat) (s : string) : option (value * string) :=
  match fuel with
  | O => None
  | S fuel =>
      match skip_space s with
      | EmptyString => None
      | String c rest as s' =>
          if Ascii.eqb c "n" then literal "null" Null s'
          else if Ascii.eqb c "t" then literal "true" (Boolean true) s'
          else if Ascii.eqb c "f" then literal "false" (Boolean false) s'
          else if Ascii.eqb c quote then
            match text rest with
            | Some (t, after) => Some (Text t, after)
            | None => None
            end
          else if Ascii.eqb c "[" then
            match skip_space rest with
            | String c' rest' =>
                if Ascii.eqb c' "]" then Some (Array [], rest')
                else
                  match parse_elements fuel rest with
                  | Some (l, after) => Some (Array l, after)
                  | None => None
                  end
            | EmptyString => None
            end
          else if Ascii.eqb c "{" then
            match skip_space rest with
            | String c' rest' =>
                if Ascii.eqb c' "}" then Some (Object [], rest')
                else
                  match parse_members fuel rest with
                  | Some (l, after) => Some (Object l, after)
                  | None => None
                  end
            | EmptyString => None
            end
          else
            match number s' with
            | Some (lexeme, after) => Some (Number lexeme, after)
            | None => None
            end
      end
  end
with parse_elements (fuel : nat) (s : string)
  : option (list value * string) :=
  match fuel with
  | O => None
  | S fuel =>
      match parse_value fuel s with
      | None => None
      | Some (v, after) =>
          match skip_space after with
          | String c rest =>
              if Ascii.eqb c "," then
                match parse_elements fuel rest with
                | Some (l, after') => Some (v :: l, after')
                | None => None
                end
              else if Ascii.eqb c "]" then Some ([v], rest)
              else None
          | EmptyString => None
          end
      end
  end
with parse_members (fuel : nat) (s : string)
  : option (list (string * value) * string) :=
  match fuel with
  | O => None
  | S fuel =>
      match skip_space s with
      | String q rest =>
          if Ascii.eqb q quote then
            match text rest with
            | None => None
            | Some (key, after_key) =>
                match skip_space after_key with
                | String colon rest1 =>
                    if Ascii.eqb colon ":" then
                      match parse_value fuel rest1 with
                      | None => None
                      | Some (v, after) =>
                          match skip_space after with
                          | String c rest2 =>
                              if Ascii.eqb c "," then
                                match parse_members fuel rest2 with
                                | Some (l, after') =>
                                    Some ((key, v) :: l, after')
                                | None => None
                                end
                              else if Ascii.eqb c "}"
                              then Some ([(key, v)], rest2)
                              else None
                          | EmptyString => None
                          end
                      end
                    else None
                | EmptyString => None
                end
            end
          else None
      | EmptyString => None
      end
  end.

(** The value a text denotes, when the whole text is one JSON value. *)
Definition parse (s : string) : option value :=
  match parse_value (2 * String.length s + 2) s with
  | Some (v, after) =>
      match skip_space after with
      | EmptyString => Some v
      | String _ _ => None
      end
  | None => None
  end.

(** A well-formed JSON text. *)
Definition valid (s : string) : bool :=
  match parse s with
  | Some _ => true
  | None => false
  end.

(** The integer a number denotes, for a field of type [int64]: the lexeme
    must be an integer literal within the range of the type. *)
Fixpoint digits_value (s : string) (acc : Z) : option Z :=
  match s with
  | EmptyString => Some acc
  | String c rest =>
      if is_digit c
      then digits_value rest (acc * 10 + (Z.of_nat (nat_of_ascii c) - 48))%Z
      else None
  end.

Definition int64 (lexeme : string) : option Z :=
  let z :=
    match lexeme with
    | String c rest =>
        if Ascii.eqb c "-" then Z.opp <$> digits_value rest 0%Z
        else digits_value lexeme 0%Z
    | EmptyString => None
    end in
  match z with
  | Some z =>
      if ((- 2 ^ 63 <=? z) && (z <? 2 ^ 63))%Z then Some z else None
  | None => None
  end.

Definition lower (c : ascii) : ascii :=
  let n := nat_of_ascii c in
  if (65 <=? n)%nat && (n <=? 90)%nat then ascii_of_nat (n + 32) else c.

Fixpoint lower_string (s : string) : string :=
  match s with
  | EmptyString => EmptyString
  | String c rest => String (lower c) (lower_string rest)
  end.

(** The JSON names of the fields of [FileUpdateData]. *)
Definition names : list string :=
  ["id"; "filePath"; "hash"; "event"; "content"; "previousHash";
   "timestamp"; "apiKey"; "workspacePath"].

(** The field a key of the object goes to: the one of that name, or else one
    whose name differs in case only. *)
Definition field_of (key : string) : option string :=
  match List.find (String.eqb key) names with
  | Some name => Some name
  | None =>
      List.find (fun name => String.eqb (lower_string key) (lower_string name))
        names
  end.

Definition set_text (name v : string) (d : FileUpdateData.t)
  : FileUpdateData.t :=
  if String.eqb name "id" then FileUpdateData.set_ID v d
  else if String.eqb name "filePath" then FileUpdateData.set_FilePath v d
  else if String.eqb name "hash" then FileUpdateData.set_Hash v d
  else if String.eqb name "event" then FileUpdateData.set_Event v d
  else if String.eqb name "content" then FileUpdateData.set_Content v d
  else if String.eqb name "previousHash" then
    FileUpdateData.mk (FileUpdateData.ID d) (FileUpdateData.FilePath d)
      (FileUpdateData.Hash d) (FileUpdateData.Event d)
      (FileUpdateData.Content d) v (FileUpdateData.Timestamp d)
      (FileUpdateData.ApiKey d) (FileUpdateData.WorkspacePath d)
  else if String.eqb name "apiKey" then FileUpdateData.set_ApiKey v d
  else if String.eqb name "workspacePath" then
    FileUpdateData.set_WorkspacePath v d
  else d.

(** One member assigned: [None] when the value does not fit the type of the
    field.  [null] leaves the field as it is; a key that names no field is
    skipped. *)
Definition assign (key : string) (v : value) (d : FileUpdateData.t)
  : option FileUpdateData.t :=
  match field_of key with
  | None => Some d
  | Some name =>
      match v with
      | Null => Some d
      | Number lexeme =>
          if String.eqb name "timestamp" then
            match int64 lexeme with
            | Some z => Some (FileUpdateData.set_Timestamp z d)
            | None => None
            end
          else None
      | Text s =>
          if String.eqb name "timestamp" then None
          else Some (set_text name s d)
      | _ => None
      end
  end.

(** All members assigned in order; a value that does not fit is passed
    over and remembered. *)
Fixpoint assign_all (members : list (string * value)) (d : FileUpdateData.t)
  : FileUpdateData.t * bool :=
  match members with
  | [] => (d, true)
  | (key, v) :: rest =>
      match assign key v d with
      | Some d' => assign_all rest d'
      | None => let (d', _) := assign_all rest d in (d', false)
      end
  end.

(** [json.Unmarshal([]byte(data), &updateData)] for a zero [updateData]. *)
Definition Unmarshal_FileUpdateData (data : string)
  : result FileUpdateData.t :=
  match parse data with
  | None => inl (errors_New "json: syntax error")
  | Some Null => inr FileUpdateData.zero
  | Some (Object members) =>
      match assign_all members FileUpdateData.zero with
      | (d, true) => inr d
      | (_, false) =>
          inl (errors_New "json: cannot unmarshal value into field")
      end
  | Some _ =>
      inl (errors_New "json: cannot unmarshal value into FileUpdateData")
  end.

(** Writing documents: a quoted string, a member, an object. *)
Definition quoted (s : string) : string :=
  String quote (s +:+ String quote "").

Definition member (key value : string) : string :=
  quoted key +:+ ":" +:+ value.

Fixpoint joined (l : list string) : string :=
  match l with
  | [] => ""
  | [x] => x
  | x :: rest => x +:+ "," +:+ joined rest
  end.

Definition object (members : list string) : string :=
  "{" +:+ joined members +:+ "}".

End Json.

(** ** An in-memory double of the services

    A small store to run the handler against: users by API key, files by
    identifier, and a switch that makes the indexer fail. *)

Module Fake.

Record Store : Type := {
  users   : gmap string string;
  files   : gmap string (string * string);
  indexer : bool;
  clock   : Z;
}.

Definition notFound : error := errors_New "not found".

Definition IsNotFound (e : error) : bool := String.eqb (Error e) "not found".

Definition workspaceID (userID workspacePath : string) : string :=
  userID +:+ "@" +:+ workspacePath.

Definition fileID (workspaceID path : string) : string :=
  workspaceID +:+ "/" +:+ path.

Definition with_files (fs : gmap string (string * string)) (s : Store)
  : Store :=
  {| users := users s; files := fs; indexer := indexer s; clock := clock s |}.

Definition userService : domain.UserUsecase Store :=
  {| domain.GetUserByApiKey apiKey s :=
       match users s !! apiKey with
       | Some id => (s, inr (domain.User.mk id))
       | None => (s, inl (errors_New "unknown key"))
       end |}.

Definition workspaceUsecase : domain.WorkspaceUsecase Store :=
  {| domain.EnsureWorkspace userID workspacePath name s :=
       (s, inr (domain.Workspace.mk (workspaceID userID workspacePath))) |}.

Definition workspaceService : domain.WorkspaceFileUsecase Store :=
  {| domain.GetByPath userID wsID path s :=
       match files s !! fileID wsID path with
       | Some (hash, _) =>
           (s, inr (domain.WorkspaceFile.mk (fileID wsID path) hash))
       | None => (s, inl notFound)
       end;
     domain.Create req s :=
       let id := fileID (domain.CreateWorkspaceFileReq.WorkspaceID req)
                   (domain.CreateWorkspaceFileReq.Path req) in
       match files s !! id with
       | Some _ => (s, inl (errors_New "duplicate file"))
       | None =>
           (with_files
              (<[id := (domain.CreateWorkspaceFileReq.Hash req,
                        domain.CreateWorkspaceFileReq.Content req)]> (files s))
              s,
            inr (domain.WorkspaceFile.mk id
                   (domain.CreateWorkspaceFileReq.Hash req)))
       end;
     domain.Update req s :=
       let id := domain.UpdateWorkspaceFileReq.ID req in
       match files s !! id with
       | Some (hash, content) =>
           let hash' :=
             default hash (domain.UpdateWorkspaceFileReq.Hash req) in
           let content' :=
             default content (domain.UpdateWorkspaceFileReq.Content req) in
           (with_files (<[id := (hash', content')]> (files s)) s,
            inr (domain.WorkspaceFile.mk id hash'))
       | None => (s, inl notFound)
       end;
     domain.Delete id s :=
       match files s !! id with
       | Some _ => (with_files (delete id (files s)) s, None)
       | None => (s, Some notFound)
       end;
     domain.GetAndSave req s :=
       if indexer s then (s, None)
       else (s, Some (errors_New "index unavailable")) |}.

(** The clock advances by one millisecond per reading. *)
Definition time_Now (s : Store) : Store * Z :=
  ({| users := users s; files := files s; indexer := indexer s;
      clock := (clock s + 1)%Z |}, clock s).

(** A decoder that knows two documents and rejects every other string. *)
Definition scan_main_go : FileUpdateData.t :=
  FileUpdateData.mk "n1" "main.go" "h1" "initial_scan" "package main" ""
    1700000000000 "key-alice" "/home/alice/proj".

Definition json_Unmarshal_FileUpdateData (data : string)
  : result FileUpdateData.t :=
  if String.eqb data "{}" then inr FileUpdateData.zero
  else if String.eqb data "scan main.go" then inr scan_main_go
  else inl (errors_New "invalid character").

Definition json_Unmarshal_TestPingData (data : string)
  : result TestPingData.t :=
  if String.eqb data "{}" then inr (TestPingData.mk 0 "" "")
  else inl (errors_New "invalid character").

Definition json_Unmarshal_HeartbeatData (data : string)
  : result HeartbeatData.t :=
  if String.eqb data "{}" then inr (HeartbeatData.mk "" 0 "")
  else inl (errors_New "invalid character").

Definition handler : SocketHandler Store :=
  NewSocketHandler workspaceService workspaceUsecase userService.

(** Alice is the only user; nothing is stored yet. *)
Definition empty_store (indexer_up : bool) : Store :=
  {| users := {["key-alice" := "alice"]}; files := ∅;
     indexer := indexer_up; clock := 0 |}.

Definition socket : socketio.Socket.t := socketio.Socket.mk "s1".

Definition alice : domain.User.t := domain.User.mk "alice".

Definition proj : domain.Workspace.t :=
  domain.Workspace.mk (workspaceID "alice" "/home/alice/proj").

Definition main_go : domain.WorkspaceFile.t :=
  domain.WorkspaceFile.mk (fileID (workspaceID "alice" "/home/alice/proj")
                             "main.go") "h1".

(** The handler right after construction, with the indexer up or down. *)
Definition fresh : State Store := boot handler (empty_store true).

Definition fresh_indexer_down : State Store := boot handler (empty_store false).

(** After the first scan of [main.go] has been reconciled. *)
Definition scanned : State Store :=
  fst (processFileUpdateAsync IsNotFound socket scan_main_go fresh).

Definition scanned_indexer_down : State Store :=
  fst (processFileUpdateAsync IsNotFound socket scan_main_go
         fresh_indexer_down).

(** Further notifications from Alice. *)
Definition modify_main_go : FileUpdateData.t :=
  FileUpdateData.mk "n2" "main.go" "h2" "modified" "package main // v2" "h1"
    1700000000500 "key-alice" "/home/alice/proj".

Definition rename_main_go : FileUpdateData.t :=
  FileUpdateData.mk "n3" "main.go" "h1" "renamed" "" ""
    1700000000600 "key-alice" "/home/alice/proj".

Definition rename_bad_key : FileUpdateData.t :=
  FileUpdateData.mk "n4" "main.go" "h1" "renamed" "" ""
    1700000000700 "key-mallory" "/home/alice/proj".

Definition scan_no_root : FileUpdateData.t :=
  FileUpdateData.mk "n5" "main.go" "h1" "added" "package main" ""
    1700000000800 "key-alice" "".

Definition scan_no_path : FileUpdateData.t :=
  FileUpdateData.mk "n6" "" "h0" "initial_scan" "stray" ""
    1700000000900 "key-alice" "/home/alice/proj".

(** Payloads of the file-change event. *)
Definition payload_scan : socketio.EventPayload.t :=
  socketio.EventPayload.mk [String_ "scan main.go"] (Some 7%nat).

Definition payload_broken : socketio.EventPayload.t :=
  socketio.EventPayload.mk [String_ "not-json{"] (Some 8%nat).

Definition map_with_previousHash : gmap string any :=
  <["id" := String_ "n7"]>
  (<["event" := String_ "modified"]>
  (<["previousHash" := String_ "h1"]>
  (<["hash" := String_ "h2"]> ∅))).

Definition payload_map : socketio.EventPayload.t :=
  socketio.EventPayload.mk [MapStringAny map_with_previousHash] (Some 9%nat).

(** The file scanned again after an edit, its deletion, and a scan of a
    second file while the store refuses to create. *)
Definition rescan_main_go : FileUpdateData.t :=
  FileUpdateData.mk "n8" "main.go" "h2" "added" "package main // v2" ""
    1700000001000 "key-alice" "/home/alice/proj".

Definition delete_main_go : FileUpdateData.t :=
  FileUpdateData.mk "n9" "main.go" "" "deleted" "" ""
    1700000001100 "key-alice" "/home/alice/proj".

Definition main_go_v2 : domain.WorkspaceFile.t :=
  domain.WorkspaceFile.mk (fileID (workspaceID "alice" "/home/alice/proj")
                             "main.go") "h2".

(** A store that answers lookups and refuses every write. *)
Definition readonly_workspaceService : domain.WorkspaceFileUsecase Store :=
  {| domain.GetByPath := domain.GetByPath workspaceService;
     domain.Create req s := (s, inl (errors_New "read-only store"));
     domain.Update req s := (s, inl (errors_New "read-only store"));
     domain.Delete id s := (s, Some (errors_New "read-only store"));
     domain.GetAndSave := domain.GetAndSave workspaceService |}.

(** Services that cannot reach their database. *)
Definition offline_workspaceService : domain.WorkspaceFileUsecase Store :=
  {| domain.GetByPath userID wsID path s :=
       (s, inl (errors_New "connection refused"));
     domain.Create req s := (s, inl (errors_New "connection refused"));
     domain.Update req s := (s, inl (errors_New "connection refused"));
     domain.Delete id s := (s, Some (errors_New "connection refused"));
     domain.GetAndSave req s := (s, Some (errors_New "connection refused")) |}.

Definition offline_workspaceUsecase : domain.WorkspaceUsecase Store :=
  {| domain.EnsureWorkspace userID workspacePath name s :=
       (s, inl (errors_New "connection refused")) |}.

Definition readonly_fresh : State Store :=
  boot (NewSocketHandler readonly_workspaceService workspaceUsecase
          userService)
    (empty_store true).

Definition readonly_scanned : State Store :=
  boot (NewSocketHandler readonly_workspaceService workspaceUsecase
          userService)
    (world scanned).

Definition files_offline : State Store :=
  boot (NewSocketHandler offline_workspaceService workspaceUsecase
          userService)
    (empty_store true).

Definition all_offline : State Store :=
  boot (NewSocketHandler offline_workspaceService offline_workspaceUsecase
          userService)
    (empty_store true).

(** More payloads: a number, the scan without a callback, and the document
    the liveness decoders accept. *)
Definition payload_number : socketio.EventPayload.t :=
  socketio.EventPayload.mk [Float64 0] (Some 12%nat).


Definition payload_empty_object : socketio.EventPayload.t :=
  socketio.EventPayload.mk [String_ "{}"] (Some 13%nat).

Definition heartbeat (data : socketio.EventPayload.t) : M Store unit :=
  registerHeartbeatHandler Store json_Unmarshal_HeartbeatData time_Now socket
    data.

Definition ping (data : socketio.EventPayload.t) : M Store unit :=
  registerTestPingHandler Store json_Unmarshal_TestPingData time_Now
    (fun t => "1970-01-01T00:00:00Z") socket data.

(** The deletion of the file with the empty path, and the state after its
    scan. *)
Definition delete_no_path : FileUpdateData.t :=
  FileUpdateData.mk "n10" "" "" "deleted" "" ""
    1700000001200 "key-alice" "/home/alice/proj".

Definition stray_scanned : State Store :=
  fst (processFileUpdateAsync IsNotFound socket scan_no_path fresh).

(** The scan of [main.go] as the JSON document a client sends, and a
    well-formed JSON text that is no object. *)
Definition scan_document : string :=
  Json.object
    [Json.member "id" (Json.quoted "n1");
     Json.member "filePath" (Json.quoted "main.go");
     Json.member "hash" (Json.quoted "h1");
     Json.member "event" (Json.quoted "initial_scan");
     Json.member "content" (Json.quoted "package main");
     Json.member "timestamp" "1700000000000";
     Json.member "apiKey" (Json.quoted "key-alice");
     Json.member "workspacePath" (Json.quoted "/home/alice/proj")].

Definition payload_document : socketio.EventPayload.t :=
  socketio.EventPayload.mk [String_ scan_document] (Some 14%nat).

Definition payload_array : socketio.EventPayload.t :=
  socketio.EventPayload.mk [String_ "[]"] (Some 15%nat).

(** The arrival of a file-change event, decoded by [Json]. *)
Definition receive_json (data : socketio.EventPayload.t) : M Store unit :=
  registerFileUpdateHandler (fun bits => bits) Json.Unmarshal_FileUpdateData
    socket data.

(** One reconciliation, and the arrival of one file-change event, on the
    connection [socket]. *)
Definition reconcile (d : FileUpdateData.t) : M Store unit :=
  processFileUpdateAsync IsNotFound socket d.

Definition receive (data : socketio.EventPayload.t) : M Store unit :=
  registerFileUpdateHandler (fun bits => bits) json_Unmarshal_FileUpdateData
    socket data.

(** The whole handler over the in-memory services. *)
Definition serve (events : list (Incoming)) : M Store unit :=
  run (fun bits => bits) IsNotFound json_Unmarshal_FileUpdateData
    json_Unmarshal_TestPingData json_Unmarshal_HeartbeatData time_Now
    (fun t => "1970-01-01T00:00:00Z") events.

(** A session: connect, send the scan, let it be reconciled, send the same
    scan again, let that be reconciled, ask for statistics. *)
Definition session : list Incoming :=
  [Connect socket;
   Event socket "file:update" payload_scan;
   Schedule 0;
   Event socket "file:update" payload_scan;
   Schedule 0;
   Event socket "workspace:stats" (socketio.EventPayload.mk [] (Some 10%nat))].

End Fake.

Arguments finalResponse : simpl never.
Arguments error_response : simpl never.
Arguments immediateAck : simpl never.

(** ** Observations used in the statements *)

(** Running a method: the state it leaves. *)
Notation "c '@' st" := (fst (c st)) (at level 20, only parsing).

(** [sub] occurs in [s]. *)
Definition contains (sub s : string) : bool :=
  match String.index 0 sub s with
  | Some _ => true
  | None => false
  end.

(** The correlation identifier carried by a reply. *)
Definition correlation_id (a : any) : option string :=
  match a with
  | Struct_AckResponse r => Some (AckResponse.ID r)
  | MapStringAny m => assert_string (m !! "id")
  | _ => None
  end.

(** The status carried by a reply. *)
Definition reply_status (a : any) : option string :=
  match a with
  | Struct_AckResponse r => Some (AckResponse.Status r)
  | MapStringAny m => assert_string (m !! "status")
  | _ => None
  end.

(** The event kinds the [switch] of [processFileUpdateAsync] knows. *)
Definition known_events : list string :=
  ["initial_scan"; "added"; "modified"; "deleted"].

(** The calls made by a run from [st] to [st']: those recorded in [st'] after
    the ones of [st]. *)
Definition new_calls {World} (st st' : State World) : list Call :=
  drop (length (calls st)) (calls st').

(** A payload the file-change handler can decode: a string that
    [json.Unmarshal] accepts, or a map. *)
Definition decodable
    (json_Unmarshal_FileUpdateData : string -> result FileUpdateData.t)
    (v : any) : bool :=
  match v with
  | String_ s =>
      match json_Unmarshal_FileUpdateData s with
      | inr _ => true
      | inl _ => false
      end
  | MapStringAny _ => true
  | _ => false
  end.

(** The state [st] with [m] put in place of the handler's workspace cache. *)
Definition with_cache {World} (m : gmap string domain.Workspace.t)
    (st : State World) : State World :=
  {| world := world st;
     this := {| workspaceService := workspaceService (this st);
                workspaceUsecase := workspaceUsecase (this st);
                userService := userService (this st);
                workspaceCache := m |};
     calls := calls st; out := out st; logs := logs st;
     goroutines := goroutines st; panicked := panicked st |}.

(** A computation that neither reads nor writes the workspace cache: run
    with another cache, it does the same and leaves that cache in place. *)
Definition cache_blind {World A} (c : M World A) : Prop :=
  forall m st, c (with_cache m st) = (with_cache m (fst (c st)), snd (c st)).

(** The notification a map payload stands for, field by field: the string
    under the key of a field, the empty string when the key is missing or
    holds another type; the converted number under "timestamp", zero
    otherwise; no previous hash. *)
Definition notification_of_map (int64_of_float64 : Z -> Z)
    (dataMap : gmap string any) : FileUpdateData.t :=
  let text key := default "" (assert_string (dataMap !! key)) in
  FileUpdateData.mk (text "id") (text "filePath") (text "hash") (text "event")
    (text "content") ""
    (default 0%Z (int64_of_float64 <$> assert_float64 (dataMap !! "timestamp")))
    (text "apiKey") (text "workspacePath").

(** The notification a payload element stands for: what [json.Unmarshal]
    gives for a string it accepts, the fields of a map; nothing for a string
    it rejects or for any other value. *)
Definition notification_of (int64_of_float64 : Z -> Z)
    (json_Unmarshal_FileUpdateData : string -> result FileUpdateData.t)
    (v : any) : option FileUpdateData.t :=
  match v with
  | String_ s =>
      match json_Unmarshal_FileUpdateData s with
      | inr d => Some d
      | inl _ => None
      end
  | MapStringAny dataMap => Some (notification_of_map int64_of_float64 dataMap)
  | _ => None
  end.

(** The notifications an incoming event hands over for reconciliation, with
    the connection they came on: the one its payload stands for, when it is
    a file-change event. *)
Definition accepted (int64_of_float64 : Z -> Z)
    (json_Unmarshal_FileUpdateData : string -> result FileUpdateData.t)
    (i : Incoming) : list (socketio.Socket.t * FileUpdateData.t) :=
  match i with
  | Event socket name data =>
      if String.eqb name "file:update" then
        match socketio.EventPayload.Data data with
        | v :: _ =>
            match notification_of int64_of_float64
                    json_Unmarshal_FileUpdateData v with
            | Some d => [(socket, d)]
            | None => []
            end
        | [] => []
        end
      else []
  | _ => []
  end.

(** What tells one notification from another in the messages: its
    connection, its identifier and its path. *)
Definition notification_key (g : socketio.Socket.t * FileUpdateData.t)
  : socketio.Socket.t * string * string :=
  (fst g, FileUpdateData.ID (snd g), FileUpdateData.FilePath (snd g)).

(** The notification a final result answers, and the notifications answered
    by a list of messages, one entry per final result. *)
Definition answer_key (e : Emission)
  : list (socketio.Socket.t * string * string) :=
  match e with
  | Emit socket event (MapStringAny m) =>
      if String.eqb event "file:update:ack" then
        match assert_string (m !! "id"), assert_string (m !! "file") with
        | Some id, Some file => [(socket, id, file)]
        | _, _ => []
        end
      else []
  | _ => []
  end.

Definition answers (l : list Emission)
  : list (socketio.Socket.t * string * string) :=
  concat (map answer_key l).

(** The calls that write a file, and the submissions to the indexer. *)
Definition is_write (c : Call) : bool :=
  match c with
  | CallCreate _ | CallUpdate _ => true
  | _ => false
  end.

Definition is_index (c : Call) : bool :=
  match c with
  | CallGetAndSave _ => true
  | _ => false
  end.

(** The final results among the messages sent, and how many they are. *)
Definition is_final_result (e : Emission) : bool :=
  match e with
  | Emit _ event _ => String.eqb event "file:update:ack"
  | AckReply _ _ => false
  end.

Definition final_results (l : list Emission) : nat :=
  length (List.filter is_final_result l).

(** An incoming event that starts a goroutine: a file-change event whose
    first payload element decodes. *)
Definition starts_goroutine
    (json_Unmarshal_FileUpdateData : string -> result FileUpdateData.t)
    (i : Incoming) : bool :=
  match i with
  | Event _ name data =>
      String.eqb name "file:update"
      && match socketio.EventPayload.Data data with
         | v :: _ => decodable json_Unmarshal_FileUpdateData v
         | [] => false
         end
  | _ => false
  end.

(** A message that goes to the connection [socket]: an emission on it, or
    the reply to an event (which travels on the connection of the event). *)
Definition addressed_to (socket : socketio.Socket.t) (e : Emission) : Prop :=
  match e with
  | Emit s _ _ => s = socket
  | AckReply _ _ => True
  end.

(** A message that stays within the connections [sockets]. *)
Definition within (sockets : list socketio.Socket.t) (e : Emission) : Prop :=
  match e with
  | Emit s _ _ => s ∈ sockets
  | AckReply _ _ => True
  end.

(** The reply sent through the callback of [data], if it has one. *)
Definition replies (data : socketio.EventPayload.t) (response : any)
  : list Emission :=
  match socketio.EventPayload.Ack data with
  | Some ack => [AckReply ack response]
  | None => []
  end.

(** The connections an incoming event belongs to. *)
Definition sockets_of (i : Incoming) : list socketio.Socket.t :=
  match i with
  | Connect socket => [socket]
  | Event socket _ _ => [socket]
  | Schedule _ => []
  end.

(** A string without a ['.']. *)
Fixpoint dot_free (s : string) : bool :=
  match s with
  | EmptyString => true
  | String c rest => negb (Ascii.eqb c ".") && dot_free rest
  end.

(** ** Symbolic runs *)

Ltac run_step :=
  match goal with
  | H : String.eqb ?x ?y = _ |- context [String.eqb ?x ?y] => rewrite H
  | H : ?f = (_, _) |- context [?f] => rewrite H
  | H : ?b = true |- context [if ?b then _ else _] => rewrite H
  | H : ?b = false |- context [if ?b then _ else _] => rewrite H
  | H : ?x = _ |- context [String.eqb ?x _] => rewrite H
  end.

Ltac run_simpl :=
  cbn [fst snd world this calls out logs goroutines panicked negb
       String.eqb Ascii.eqb Bool.eqb orb andb].

Ltac run_unfold :=
  unfold processFileUpdateAsync, ensureWorkspace, sendFinalResult,
    mbind, mret, M_bind, M_ret, invoke, log, send.

Ltac run_handler := run_unfold; run_simpl; repeat (run_step; run_simpl).

(** Splits on the answer of the service call the run is waiting for. *)
Ltac is_call c :=
  lazymatch c with
  | context [match _ with pair _ _ => _ end] => fail
  | context [if _ then _ else _] => fail
  | _ => idtac
  end.

Ltac run_case :=
  match goal with
  | |- context [let (_, _) := ?c in _] =>
      is_call c;
      let w := fresh "w" in
      let r := fresh "r" in
      let E := fresh "E" in
      destruct c as [w r] eqn:E; destruct r; run_simpl
  | |- context [if ?b then _ else _] =>
      is_call b;
      let E := fresh "E" in destruct b eqn:E; run_simpl
  end.

Lemma eqb_ne (x y : string) : x <> y -> String.eqb x y = false.
Proof. apply String.eqb_neq. Qed.

Lemma new_calls_app {World} (st st' : State World) (l : list Call) :
  calls st' = calls st ++ l -> new_calls st st' = l.
Proof. intros H. unfold new_calls. rewrite H. apply drop_app_length. Qed.

Lemma correlation_id_immediateAck (d : FileUpdateData.t) :
  correlation_id (immediateAck d) = Some (FileUpdateData.ID d).
Proof. reflexivity. Qed.

Lemma correlation_id_finalResponse (d : FileUpdateData.t)
    (status message : string) :
  correlation_id (finalResponse d status message) = Some (FileUpdateData.ID d).
Proof. unfold finalResponse, correlation_id. by rewrite lookup_insert_eq. Qed.

Lemma unknown_event_eqb (ev : string) :
  ev ∉ known_events ->
  String.eqb ev "initial_scan" = false /\ String.eqb ev "added" = false /\
  String.eqb ev "modified" = false /\ String.eqb ev "deleted" = false.
Proof.
  unfold known_events. intros H.
  repeat split; apply eqb_ne; intros ->; apply H; set_solver.
Qed.

(** Brings the calls of a finished run into the form [calls st ++ l] and
    reads off [new_calls]. *)
Ltac calls_norm :=
  unfold new_calls; run_simpl; rewrite <- ?app_assoc; rewrite drop_app_length;
  cbn [app].

Example getFileExtension_last_dot :
  getFileExtension "src/app.test.tsx" = "tsx"
  /\ getFileExtension "Makefile" = "" /\ getFileExtension "notes." = "".
Proof. repeat split. Qed.

Example getFileLanguage_cases :
  getFileLanguage (getFileExtension "main.go") = domain.CodeLanguageTypeGo
  /\ getFileLanguage (getFileExtension "a.cc") = domain.CodeLanguageTypeCpp
  /\ getFileLanguage (getFileExtension "README")
     = domain.CodeLanguageTypeLit "".
Proof. repeat split. Qed.

(** ** Reconciliation of one notification *)

Section Reconciliation.

Context {World : Type} (db_IsNotFound : error -> bool).
Implicit Types (st : State World) (socket : socketio.Socket.t)
  (d : FileUpdateData.t).

(** C5: with a valid credential and an empty workspace root, the run ends in
    the error "Failed to ensure workspace: no workspace path provided",
    which contains "no workspace path provided"; identity resolution is the
    only call made, so no file method of the Workspace Store is invoked. *)
Theorem empty_workspace_root st socket d w1 user :
  domain.GetUserByApiKey (userService (this st)) (FileUpdateData.ApiKey d)
    (world st) = (w1, inr user) ->
  FileUpdateData.WorkspacePath d = "" ->
  let st' := processFileUpdateAsync db_IsNotFound socket d @ st in
  let message := "Failed to ensure workspace: no workspace path provided" in
  out st' = out st ++
    [Emit socket "file:update:ack" (finalResponse d "error" message)]
  /\ contains "no workspace path provided" message = true
  /\ calls st' = calls st ++ [CallGetUserByApiKey (FileUpdateData.ApiKey d)]
  /\ Forall (fun c => is_file_call c = false) (new_calls st st').
Proof.
  intros Hu Hw st' message.
  assert (Hc : calls st' =
               calls st ++ [CallGetUserByApiKey (FileUpdateData.ApiKey d)]).
  { subst st'. run_handler. reflexivity. }
  split; [| split; [| split; [exact Hc |]]].
  - subst st'. run_handler. reflexivity.
  - reflexivity.
  - rewrite (new_calls_app _ _ _ Hc). repeat constructor.
Qed.

(** Whatever the services answer, a run sends one message, the final
    result of its notification, and nothing else. *)
Lemma processFileUpdateAsync_out st socket d :
  exists status message,
    out (processFileUpdateAsync db_IsNotFound socket d @ st) = out st ++
      [Emit socket "file:update:ack" (finalResponse d status message)].
Proof.
  run_unfold; run_simpl. repeat run_case; eauto.
Qed.

(** C1: an [initial_scan] or [added] notification whose lookup finds a file
    with the hash of the notification ends in success with the message
    "File is already up-to-date"; the calls made are identity resolution,
    workspace ensure and the lookup, so nothing is created, updated or
    deleted. *)
Theorem unchanged_file_is_skipped st socket d w1 user w2 workspace w3 file :
  FileUpdateData.Event d = "initial_scan" \/ FileUpdateData.Event d = "added" ->
  domain.GetUserByApiKey (userService (this st)) (FileUpdateData.ApiKey d)
    (world st) = (w1, inr user) ->
  FileUpdateData.WorkspacePath d <> "" ->
  domain.EnsureWorkspace (workspaceUsecase (this st)) (domain.User.ID user)
    (FileUpdateData.WorkspacePath d) "" w1 = (w2, inr workspace) ->
  domain.GetByPath (workspaceService (this st)) (domain.User.ID user)
    (domain.Workspace.ID workspace) (FileUpdateData.FilePath d) w2
    = (w3, inr file) ->
  domain.WorkspaceFile.Hash file = FileUpdateData.Hash d ->
  let st' := processFileUpdateAsync db_IsNotFound socket d @ st in
  out st' = out st ++
    [Emit socket "file:update:ack"
       (finalResponse d "success" "File is already up-to-date")]
  /\ calls st' = calls st ++
       [CallGetUserByApiKey (FileUpdateData.ApiKey d);
        CallEnsureWorkspace (domain.User.ID user)
          (FileUpdateData.WorkspacePath d) "";
        CallGetByPath (domain.User.ID user) (domain.Workspace.ID workspace)
          (FileUpdateData.FilePath d)]
  /\ Forall (fun c => is_mutation c = false) (new_calls st st')
  /\ world st' = w3.
Proof.
  intros He Hu Hw%eqb_ne Hws Hf Hh st'.
  assert (Hhash : String.eqb (domain.WorkspaceFile.Hash file)
                    (FileUpdateData.Hash d) = true)
    by (apply String.eqb_eq, Hh).
  subst st'.
  destruct He as [He | He]; run_handler;
    (split; [reflexivity |]; split; [by rewrite <- !app_assoc |];
     split; [calls_norm; repeat constructor | reflexivity]).
Qed.

(** C2, as the code has it: for an event kind that is none of the four known
    ones, no file method of the Workspace Store is called, whatever the
    services answer; identity resolution and workspace ensure come first,
    and when both succeed the run ends in the error
    "Unknown event type: <value>" after exactly these two calls. *)
Theorem unknown_event_type st socket d :
  FileUpdateData.Event d ∉ known_events ->
  let st' := processFileUpdateAsync db_IsNotFound socket d @ st in
  Forall (fun c => is_file_call c = false) (new_calls st st')
  /\ forall w1 user w2 workspace,
       domain.GetUserByApiKey (userService (this st))
         (FileUpdateData.ApiKey d) (world st) = (w1, inr user) ->
       FileUpdateData.WorkspacePath d <> "" ->
       domain.EnsureWorkspace (workspaceUsecase (this st))
         (domain.User.ID user) (FileUpdateData.WorkspacePath d) "" w1
         = (w2, inr workspace) ->
       out st' = out st ++
         [Emit socket "file:update:ack"
            (finalResponse d "error"
               ("Unknown event type: " +:+ FileUpdateData.Event d))]
       /\ calls st' = calls st ++
            [CallGetUserByApiKey (FileUpdateData.ApiKey d);
             CallEnsureWorkspace (domain.User.ID user)
               (FileUpdateData.WorkspacePath d) ""].
Proof.
  intros (E1 & E2 & E3 & E4)%unknown_event_eqb st'. subst st'. split.
  - run_unfold; run_simpl. rewrite E1, E2, E3, E4. run_simpl.
    repeat run_case; calls_norm; repeat constructor.
  - intros w1 user w2 workspace Hu Hw%eqb_ne Hws.
    run_unfold; run_simpl. rewrite E1, E2, E3, E4. run_simpl.
    repeat (run_step; run_simpl).
    split; [reflexivity | by rewrite <- !app_assoc].
Qed.

(** C3: a [modified] notification never calls create, whatever the services
    answer; and when the lookup of its path fails, the run ends in an error
    whose message begins with "Failed to find file for update:", after
    identity resolution, workspace ensure and the lookup only. *)
Theorem modified_never_creates st socket d :
  FileUpdateData.Event d = "modified" ->
  let st' := processFileUpdateAsync db_IsNotFound socket d @ st in
  Forall (fun c => is_create c = false) (new_calls st st')
  /\ forall w1 user w2 workspace w3 err,
       domain.GetUserByApiKey (userService (this st))
         (FileUpdateData.ApiKey d) (world st) = (w1, inr user) ->
       FileUpdateData.WorkspacePath d <> "" ->
       domain.EnsureWorkspace (workspaceUsecase (this st))
         (domain.User.ID user) (FileUpdateData.WorkspacePath d) "" w1
         = (w2, inr workspace) ->
       domain.GetByPath (workspaceService (this st)) (domain.User.ID user)
         (domain.Workspace.ID workspace) (FileUpdateData.FilePath d) w2
         = (w3, inl err) ->
       let message := "Failed to find file for update: " +:+ Error err in
       out st' = out st ++
         [Emit socket "file:update:ack" (finalResponse d "error" message)]
       /\ String.prefix "Failed to find file for update:" message = true
       /\ calls st' = calls st ++
            [CallGetUserByApiKey (FileUpdateData.ApiKey d);
             CallEnsureWorkspace (domain.User.ID user)
               (FileUpdateData.WorkspacePath d) "";
             CallGetByPath (domain.User.ID user)
               (domain.Workspace.ID workspace) (FileUpdateData.FilePath d)].
Proof.
  intros He st'. subst st'. split.
  - run_handler. repeat run_case; calls_norm; repeat constructor.
  - intros w1 user w2 workspace w3 err Hu Hw%eqb_ne Hws Hf message.
    run_handler.
    split; [reflexivity |]. split; [reflexivity | by rewrite <- !app_assoc].
Qed.

(** C7: once the file is created (for [initial_scan] or [added], the lookup
    having reported not-found) or updated (for [modified]), the run ends in
    success with "File created successfully", respectively
    "File updated successfully", whatever the indexer call [GetAndSave]
    returns. *)
Theorem indexer_failure_is_not_propagated st socket d w1 user w2 workspace :
  domain.GetUserByApiKey (userService (this st)) (FileUpdateData.ApiKey d)
    (world st) = (w1, inr user) ->
  FileUpdateData.WorkspacePath d <> "" ->
  domain.EnsureWorkspace (workspaceUsecase (this st)) (domain.User.ID user)
    (FileUpdateData.WorkspacePath d) "" w1 = (w2, inr workspace) ->
  let st' := processFileUpdateAsync db_IsNotFound socket d @ st in
  let lookup :=
    domain.GetByPath (workspaceService (this st)) (domain.User.ID user)
      (domain.Workspace.ID workspace) (FileUpdateData.FilePath d) w2 in
  (forall w3 err w4 created,
     FileUpdateData.Event d = "initial_scan"
       \/ FileUpdateData.Event d = "added" ->
     lookup = (w3, inl err) ->
     db_IsNotFound err = true ->
     domain.Create (workspaceService (this st))
       (domain.CreateWorkspaceFileReq.mk (FileUpdateData.FilePath d)
          (FileUpdateData.Content d) (FileUpdateData.Hash d)
          (domain.User.ID user) (domain.Workspace.ID workspace)) w3
       = (w4, inr created) ->
     out st' = out st ++
       [Emit socket "file:update:ack"
          (finalResponse d "success" "File created successfully")])
  /\
  (forall w3 file w4 updated,
     FileUpdateData.Event d = "modified" ->
     lookup = (w3, inr file) ->
     domain.Update (workspaceService (this st))
       (domain.UpdateWorkspaceFileReq.mk (domain.WorkspaceFile.ID file)
          (Some (FileUpdateData.Content d)) (Some (FileUpdateData.Hash d))) w3
       = (w4, inr updated) ->
     out st' = out st ++
       [Emit socket "file:update:ack"
          (finalResponse d "success" "File updated successfully")]).
Proof.
  intros Hu Hw%eqb_ne Hws st' lookup. subst st' lookup. split.
  - intros w3 err w4 created He Hf Hnf Hc.
    destruct He as [He | He]; run_handler; run_case; reflexivity.
  - intros w3 file w4 updated He Hf Hup.
    run_handler; run_case; reflexivity.
Qed.

(** C8, as the code has it: an empty [filePath] is not rejected.  With a
    valid credential and a workspace that resolves, the empty path is looked
    up in the Workspace Store and the run goes on from the answers of the
    store exactly as for any other path, for each of the four event kinds:
    the file under the empty path is skipped, updated, created or deleted
    with the usual success result, and the only errors are those the store
    returns. *)
Theorem empty_file_path_is_reconciled st socket d w1 user w2 workspace :
  FileUpdateData.FilePath d = "" ->
  domain.GetUserByApiKey (userService (this st)) (FileUpdateData.ApiKey d)
    (world st) = (w1, inr user) ->
  FileUpdateData.WorkspacePath d <> "" ->
  domain.EnsureWorkspace (workspaceUsecase (this st)) (domain.User.ID user)
    (FileUpdateData.WorkspacePath d) "" w1 = (w2, inr workspace) ->
  let st' := processFileUpdateAsync db_IsNotFound socket d @ st in
  let service := workspaceService (this st) in
  let userID := domain.User.ID user in
  let workspaceID := domain.Workspace.ID workspace in
  let ends_in status message made :=
    out st' = out st ++
      [Emit socket "file:update:ack" (finalResponse d status message)]
    /\ new_calls st st' =
         [CallGetUserByApiKey (FileUpdateData.ApiKey d);
          CallEnsureWorkspace userID (FileUpdateData.WorkspacePath d) "";
          CallGetByPath userID workspaceID ""] ++ made in
  let lookup := domain.GetByPath service userID workspaceID "" w2 in
  let updateReq file :=
    domain.UpdateWorkspaceFileReq.mk (domain.WorkspaceFile.ID file)
      (Some (FileUpdateData.Content d)) (Some (FileUpdateData.Hash d)) in
  let createReq :=
    domain.CreateWorkspaceFileReq.mk "" (FileUpdateData.Content d)
      (FileUpdateData.Hash d) userID workspaceID in
  let index :=
    CallGetAndSave
      (domain.GetAndSaveReq.mk userID workspaceID
         [domain.FileMeta.mk "" (domain.CodeLanguageTypeLit "")
            (FileUpdateData.Content d)]) in
  (FileUpdateData.Event d = "initial_scan"
     \/ FileUpdateData.Event d = "added" ->
   (forall w3 file,
      lookup = (w3, inr file) ->
      domain.WorkspaceFile.Hash file = FileUpdateData.Hash d ->
      ends_in "success" "File is already up-to-date" [])
   /\ (forall w3 file w4 updated,
         lookup = (w3, inr file) ->
         domain.WorkspaceFile.Hash file <> FileUpdateData.Hash d ->
         domain.Update service (updateReq file) w3 = (w4, inr updated) ->
         ends_in "success" "File updated successfully"
           [CallUpdate (updateReq file)])
   /\ (forall w3 file w4 err,
         lookup = (w3, inr file) ->
         domain.WorkspaceFile.Hash file <> FileUpdateData.Hash d ->
         domain.Update service (updateReq file) w3 = (w4, inl err) ->
         ends_in "error" ("Failed to update existing file: " +:+ Error err)
           [CallUpdate (updateReq file)])
   /\ (forall w3 err,
         lookup = (w3, inl err) ->
         db_IsNotFound err = false ->
         ends_in "error" ("Error checking for existing file: " +:+ Error err)
           [])
   /\ (forall w3 err w4 created,
         lookup = (w3, inl err) ->
         db_IsNotFound err = true ->
         domain.Create service createReq w3 = (w4, inr created) ->
         ends_in "success" "File created successfully"
           [CallCreate createReq; index])
   /\ (forall w3 err w4 createErr,
         lookup = (w3, inl err) ->
         db_IsNotFound err = true ->
         domain.Create service createReq w3 = (w4, inl createErr) ->
         ends_in "error" ("Failed to create file: " +:+ Error createErr)
           [CallCreate createReq]))
  /\ (FileUpdateData.Event d = "modified" ->
      (forall w3 err,
         lookup = (w3, inl err) ->
         ends_in "error" ("Failed to find file for update: " +:+ Error err) [])
      /\ (forall w3 file w4 updated,
            lookup = (w3, inr file) ->
            domain.Update service (updateReq file) w3 = (w4, inr updated) ->
            ends_in "success" "File updated successfully"
              [CallUpdate (updateReq file); index])
      /\ (forall w3 file w4 err,
            lookup = (w3, inr file) ->
            domain.Update service (updateReq file) w3 = (w4, inl err) ->
            ends_in "error" ("Failed to update file: " +:+ Error err)
              [CallUpdate (updateReq file)]))
  /\ (FileUpdateData.Event d = "deleted" ->
      (forall w3 err,
         lookup = (w3, inl err) ->
         ends_in "error" ("Failed to find file for deletion: " +:+ Error err)
           [])
      /\ (forall w3 file w4,
            lookup = (w3, inr file) ->
            domain.Delete service (domain.WorkspaceFile.ID file) w3
              = (w4, None) ->
            ends_in "success" "File deleted successfully"
              [CallDelete (domain.WorkspaceFile.ID file)])
      /\ (forall w3 file w4 err,
            lookup = (w3, inr file) ->
            domain.Delete service (domain.WorkspaceFile.ID file) w3
              = (w4, Some err) ->
            ends_in "error" ("Failed to delete file: " +:+ Error err)
              [CallDelete (domain.WorkspaceFile.ID file)])).
Proof.
  intros Hp Hu Hw%eqb_ne Hws st' service userID workspaceID ends_in lookup
    updateReq createReq index.
  subst st' service userID workspaceID ends_in lookup updateReq createReq
    index.
  assert (Hsame : forall file,
            domain.WorkspaceFile.Hash file = FileUpdateData.Hash d ->
            String.eqb (domain.WorkspaceFile.Hash file) (FileUpdateData.Hash d)
            = true) by (intros file; apply String.eqb_eq).
  pose proof eqb_ne as Hother.
  split; [| split].
  - intros He.
    repeat (split; intros);
      repeat match goal with
             | H : domain.WorkspaceFile.Hash _ = _ |- _ => apply Hsame in H
             | H : domain.WorkspaceFile.Hash _ <> _ |- _ => apply Hother in H
             end;
      destruct He as [He | He];
      run_unfold; run_simpl; rewrite ?Hp; repeat (run_step; run_simpl);
      try run_case;
      first [reflexivity | calls_norm; reflexivity].
  - intros He.
    repeat (split; intros);
      run_unfold; run_simpl; rewrite ?Hp; repeat (run_step; run_simpl);
      try run_case;
      first [reflexivity | calls_norm; reflexivity].
  - intros He.
    repeat (split; intros);
      run_unfold; run_simpl; rewrite ?Hp; repeat (run_step; run_simpl);
      try run_case;
      first [reflexivity | calls_norm; reflexivity].
Qed.

(** A run starts no goroutine and ends none but its own. *)
Lemma processFileUpdateAsync_goroutines st socket d :
  goroutines (processFileUpdateAsync db_IsNotFound socket d @ st)
  = goroutines st.
Proof.
  run_unfold; run_simpl. repeat run_case; reflexivity.
Qed.

(** Running a waiting goroutine is running [processFileUpdateAsync] on its
    notification, once: the goroutine leaves the list. *)
Lemma schedule_waiting st socket d n :
  goroutines st !! n = Some (socket, d) ->
  let st' := schedule db_IsNotFound n @ st in
  (exists status message,
     out st' = out st ++
       [Emit socket "file:update:ack" (finalResponse d status message)])
  /\ goroutines st' = take n (goroutines st) ++ drop (S n) (goroutines st).
Proof.
  intros Hn st'. subst st'. unfold schedule. rewrite Hn.
  match goal with
  | |- context [processFileUpdateAsync _ _ _ ?s] => set (st0 := s)
  end.
  split.
  - apply (processFileUpdateAsync_out st0).
  - apply (processFileUpdateAsync_goroutines st0).
Qed.

End Reconciliation.

(** ** Decoding and the immediate acknowledgement *)

Section Acknowledgement.

Context {World : Type} (db_IsNotFound : error -> bool).
Context (int64_of_float64 : Z -> Z).
Context (json_Unmarshal_FileUpdateData : string -> result FileUpdateData.t).
Implicit Types (st : State World) (socket : socketio.Socket.t)
  (d : FileUpdateData.t) (data : socketio.EventPayload.t).

Ltac ack_unfold :=
  unfold registerFileUpdateHandler, processFileUpdateData, handleFileUpdate,
    handleFileUpdateFromObject, sendACKWithLock, sendErrorACK,
    mbind, mret, M_bind, M_ret, log, send, go;
  run_simpl.

(** The fields set from a map leave [PreviousHash] as it is. *)
Lemma handleFileUpdateFromObject_spawns st socket data dataMap rest :
  socketio.EventPayload.Data data = MapStringAny dataMap :: rest ->
  exists d,
    handleFileUpdateFromObject int64_of_float64 socket data st
    = ({| world := world st; this := this st; calls := calls st;
          out := out st;
          logs := logs st ++ [(LevelDebug, "Processing file update")];
          goroutines := goroutines st ++ [(socket, d)];
          panicked := panicked st |}, immediateAck d)
    /\ FileUpdateData.PreviousHash d = "".
Proof.
  intros Hd. unfold handleFileUpdateFromObject. rewrite Hd.
  eexists. split; [reflexivity |].
  repeat match goal with
         | |- context [match ?x with Some _ => _ | None => _ end] =>
             destruct x
         end; reflexivity.
Qed.

(** C10: whatever the map holds, also under the key "previousHash", the
    notification decoded from it and handed to the goroutine has an empty
    [PreviousHash]. *)
Theorem map_payload_drops_previousHash st socket data dataMap rest :
  socketio.EventPayload.Data data = MapStringAny dataMap :: rest ->
  let r := handleFileUpdateFromObject int64_of_float64 socket data st in
  exists d,
    goroutines (fst r) = goroutines st ++ [(socket, d)]
    /\ snd r = immediateAck d
    /\ FileUpdateData.PreviousHash d = "".
Proof.
  intros Hd r. subst r.
  destruct (handleFileUpdateFromObject_spawns st socket data dataMap rest Hd)
    as (d & -> & Hp).
  exists d. auto.
Qed.

(** C6: a string that [json.Unmarshal] rejects is answered with the error
    reply "Invalid data format" (through the acknowledgement callback, when
    the event has one) and nothing else happens: no goroutine is started, no
    service is called, the outside world is left as it is. *)
Theorem malformed_json_is_rejected st socket data s rest err :
  socketio.EventPayload.Data data = String_ s :: rest ->
  json_Unmarshal_FileUpdateData s = inl err ->
  let st' :=
    registerFileUpdateHandler int64_of_float64 json_Unmarshal_FileUpdateData
      socket data @ st in
  snd (handleFileUpdate json_Unmarshal_FileUpdateData socket s st)
    = error_response "Invalid data format"
  /\ out st' = out st ++
       match socketio.EventPayload.Ack data with
       | Some ack => [AckReply ack (error_response "Invalid data format")]
       | None => []
       end
  /\ goroutines st' = goroutines st
  /\ calls st' = calls st
  /\ world st' = world st.
Proof.
  intros Hd Hj st'. subst st'. ack_unfold. rewrite Hd, Hj. run_simpl.
  destruct (socketio.EventPayload.Ack data); run_simpl;
    rewrite ?app_nil_r; auto.
Qed.

(** The map path hands over the notification the map stands for. *)
Lemma handleFileUpdateFromObject_decodes st socket data dataMap rest :
  socketio.EventPayload.Data data = MapStringAny dataMap :: rest ->
  let d := notification_of_map int64_of_float64 dataMap in
  handleFileUpdateFromObject int64_of_float64 socket data st
  = ({| world := world st; this := this st; calls := calls st;
        out := out st;
        logs := logs st ++ [(LevelDebug, "Processing file update")];
        goroutines := goroutines st ++ [(socket, d)];
        panicked := panicked st |}, immediateAck d).
Proof.
  intros Hd d. subst d.
  unfold handleFileUpdateFromObject, notification_of_map. rewrite Hd.
  repeat match goal with
         | |- context [assert_string ?x] => destruct (assert_string x)
         | |- context [assert_float64 ?x] => destruct (assert_float64 x)
         end;
    reflexivity.
Qed.

(** C4, as the code has it.  The payload decodes to the notification [d]: a
    string for which [json.Unmarshal] returns [d] without an error, or a map
    with the fields of [d]; the event has an acknowledgement callback.
    - The decoding step starts one goroutine for [d] and returns the
      "received" reply with the identifier of [d]; it writes nothing.
    - The handler as a whole sends that reply, once, and nothing else.
    - Whenever the goroutine runs, whatever the services answer, it sends
      one message, the final result with the identifier of [d], and is
      gone.
    - Nothing orders the two writes: when the goroutine runs before the
      reply is written, the final result precedes the reply. *)
Theorem two_phase_ack st socket data v rest ack d :
  socketio.EventPayload.Data data = v :: rest ->
  notification_of int64_of_float64 json_Unmarshal_FileUpdateData v = Some d ->
  socketio.EventPayload.Ack data = Some ack ->
  let handler :=
    registerFileUpdateHandler int64_of_float64 json_Unmarshal_FileUpdateData
      socket data in
  let decoding :=
    match v with
    | String_ s => handleFileUpdate json_Unmarshal_FileUpdateData socket s
    | _ => handleFileUpdateFromObject int64_of_float64 socket data
    end in
  let reply := AckReply ack (immediateAck d) in
  (snd (decoding st) = immediateAck d
   /\ out (decoding @ st) = out st
   /\ goroutines (decoding @ st) = goroutines st ++ [(socket, d)])
  /\ (out (handler @ st) = out st ++ [reply]
      /\ goroutines (handler @ st) = goroutines st ++ [(socket, d)])
  /\ (reply_status (immediateAck d) = Some "received"
      /\ correlation_id (immediateAck d) = Some (FileUpdateData.ID d))
  /\ forall st2 n,
       goroutines st2 !! n = Some (socket, d) ->
       exists status message,
         let final :=
           Emit socket "file:update:ack" (finalResponse d status message) in
         out (schedule db_IsNotFound n @ st2) = out st2 ++ [final]
         /\ correlation_id (finalResponse d status message)
            = Some (FileUpdateData.ID d)
         /\ goroutines (schedule db_IsNotFound n @ st2)
            = take n (goroutines st2) ++ drop (S n) (goroutines st2)
         /\ out (sendACKWithLock data (immediateAck d)
                   @ (schedule db_IsNotFound n @ st2))
            = out st2 ++ [final; reply].
Proof.
  intros Hd Hv Ha handler decoding reply.
  assert (Hlater : forall st2 n,
    goroutines st2 !! n = Some (socket, d) ->
    exists status message,
      let final :=
        Emit socket "file:update:ack" (finalResponse d status message) in
      out (schedule db_IsNotFound n @ st2) = out st2 ++ [final]
      /\ correlation_id (finalResponse d status message)
         = Some (FileUpdateData.ID d)
      /\ goroutines (schedule db_IsNotFound n @ st2)
         = take n (goroutines st2) ++ drop (S n) (goroutines st2)
      /\ out (sendACKWithLock data (immediateAck d)
                @ (schedule db_IsNotFound n @ st2))
         = out st2 ++ [final; reply]).
  { intros st2 n Hn.
    destruct (schedule_waiting db_IsNotFound st2 socket d n Hn)
      as ((status & message & Ho) & Hg).
    exists status, message. cbv zeta.
    split; [exact Ho |].
    split; [apply correlation_id_finalResponse |].
    split; [exact Hg |].
    unfold sendACKWithLock, send. rewrite Ha. run_simpl. rewrite Ho.
    by rewrite <- app_assoc. }
  split; [| split; [| split; [by split | exact Hlater]]].
  - subst decoding. destruct v; try discriminate Hv.
    + cbn [notification_of] in Hv.
      destruct (json_Unmarshal_FileUpdateData s) as [err | d'] eqn:Hj;
        [discriminate Hv |].
      injection Hv as ->.
      unfold handleFileUpdate, mbind, mret, M_bind, M_ret, log, go.
      rewrite Hj. run_simpl. auto.
    + cbn [notification_of] in Hv. injection Hv as <-.
      rewrite (handleFileUpdateFromObject_decodes st socket data m rest Hd).
      run_simpl. auto.
  - subst handler reply. destruct v; try discriminate Hv.
    + cbn [notification_of] in Hv.
      destruct (json_Unmarshal_FileUpdateData s) as [err | d'] eqn:Hj;
        [discriminate Hv |].
      injection Hv as ->.
      ack_unfold. rewrite Hd, Hj, Ha. run_simpl. auto.
    + cbn [notification_of] in Hv. injection Hv as <-.
      unfold registerFileUpdateHandler, processFileUpdateData,
        sendACKWithLock, mbind, mret, M_bind, M_ret, log, send.
      rewrite Hd. run_simpl.
      match goal with
      | |- context [handleFileUpdateFromObject _ _ _ ?s] =>
          rewrite (handleFileUpdateFromObject_decodes s socket data m rest Hd)
      end.
      rewrite Ha. run_simpl. auto.
Qed.

End Acknowledgement.

(** ** The workspace cache *)

Section Cache.

Context {World : Type} (int64_of_float64 : Z -> Z)
  (db_IsNotFound : error -> bool)
  (json_Unmarshal_FileUpdateData : string -> result FileUpdateData.t)
  (json_Unmarshal_TestPingData : string -> result TestPingData.t)
  (json_Unmarshal_HeartbeatData : string -> result HeartbeatData.t)
  (time_Now : World -> World * Z)
  (time_Format_RFC3339 : Z -> string).

Lemma cache_blind_ret {A} (a : A) : cache_blind (World := World) (mret a).
Proof. intros m st. reflexivity. Qed.

Lemma cache_blind_bind {A B} (c : M World A) (f : A -> M World B) :
  cache_blind c -> (forall a, cache_blind (f a)) -> cache_blind (c ≫= f).
Proof.
  intros Hc Hf m st. unfold mbind, M_bind. rewrite Hc.
  destruct (c st) as [st' a]. apply Hf.
Qed.

Lemma cache_blind_log lvl msg : cache_blind (World := World) (log lvl msg).
Proof. intros m st. reflexivity. Qed.

Lemma cache_blind_send e : cache_blind (World := World) (send e).
Proof. intros m st. reflexivity. Qed.

Lemma cache_blind_go socket d : cache_blind (World := World) (go socket d).
Proof. intros m st. reflexivity. Qed.

Lemma cache_blind_panic : cache_blind (World := World) panic.
Proof. intros m st. reflexivity. Qed.

Lemma cache_blind_now : cache_blind (now World time_Now).
Proof.
  intros m st. unfold now. cbn [world with_cache].
  destruct (time_Now (world st)). reflexivity.
Qed.

(** A service call is blind to the cache when the method called is taken
    from a field of the handler other than the cache. *)
Lemma cache_blind_invoke {A} c (f : SocketHandler World -> World -> World * A) :
  (forall m st, f (this (with_cache m st)) = f (this st)) ->
  cache_blind (invoke c f).
Proof.
  intros Hf m st. unfold invoke. rewrite Hf. cbn [world with_cache].
  destruct (f (this st) (world st)). reflexivity.
Qed.

Ltac blind :=
  repeat first
    [ apply cache_blind_ret
    | apply cache_blind_log
    | apply cache_blind_send
    | apply cache_blind_go
    | apply cache_blind_panic
    | apply cache_blind_now
    | apply cache_blind_invoke; intros; reflexivity
    | apply cache_blind_bind; [| intros ?]
    | match goal with
      | |- cache_blind (match ?x with _ => _ end) => destruct x
      | |- cache_blind (let _ := _ in _) => cbv zeta
      end ].

Lemma cache_blind_processFileUpdateAsync socket d :
  cache_blind (World := World)
    (processFileUpdateAsync db_IsNotFound socket d).
Proof.
  unfold processFileUpdateAsync, ensureWorkspace, sendFinalResult. blind.
Qed.

Lemma cache_blind_schedule n :
  cache_blind (World := World) (schedule db_IsNotFound n).
Proof.
  intros m st. unfold schedule. cbn [goroutines with_cache].
  destruct (goroutines st !! n) as [[socket d] |]; [| reflexivity].
  match goal with
  | |- _ = (with_cache m (fst (processFileUpdateAsync _ _ _ ?s)), _) =>
      exact (cache_blind_processFileUpdateAsync socket d m s)
  end.
Qed.

Lemma cache_blind_on socket name data :
  cache_blind (World := World)
    (on int64_of_float64 json_Unmarshal_FileUpdateData
       json_Unmarshal_TestPingData json_Unmarshal_HeartbeatData
       time_Now time_Format_RFC3339 socket name data).
Proof.
  unfold on, registerDisconnectHandler, registerFileUpdateHandler,
    registerTestPingHandler, registerHeartbeatHandler,
    registerWorkspaceStatsHandler, processFileUpdateData, handleFileUpdate,
    handleFileUpdateFromObject, handleTestPing, handleHeartbeat,
    sendErrorACK, sendACKWithLock.
  blind.
Qed.

Lemma cache_blind_handle i :
  cache_blind (World := World)
    (handle int64_of_float64 db_IsNotFound json_Unmarshal_FileUpdateData
       json_Unmarshal_TestPingData json_Unmarshal_HeartbeatData
       time_Now time_Format_RFC3339 i).
Proof.
  destruct i; cbn [handle].
  - unfold handleConnection, sendServerStatus. blind.
  - apply cache_blind_on.
  - apply cache_blind_schedule.
Qed.

Lemma cache_blind_run events :
  cache_blind (World := World)
    (run int64_of_float64 db_IsNotFound json_Unmarshal_FileUpdateData
       json_Unmarshal_TestPingData json_Unmarshal_HeartbeatData
       time_Now time_Format_RFC3339 events).
Proof.
  induction events as [| i events IH]; cbn [run].
  - apply cache_blind_ret.
  - apply cache_blind_bind; [apply cache_blind_handle | intros _; exact IH].
Qed.

(** C9: whatever connections, events and goroutine runs follow the
    construction of the handler, its workspace cache is still the empty map
    made by [NewSocketHandler]; and the cache is never read: started with
    any other cache in its place, the same run does the same and leaves
    that cache in place. *)
Theorem workspace_cache_is_untouched events
    (workspaceService : domain.WorkspaceFileUsecase World)
    (workspaceUsecase : domain.WorkspaceUsecase World)
    (userService : domain.UserUsecase World) (w : World) :
  let serve :=
    run int64_of_float64 db_IsNotFound json_Unmarshal_FileUpdateData
      json_Unmarshal_TestPingData json_Unmarshal_HeartbeatData
      time_Now time_Format_RFC3339 events in
  let h := NewSocketHandler workspaceService workspaceUsecase userService in
  workspaceCache (this (serve @ boot h w)) = ∅
  /\ forall m st, serve (with_cache m st) = (with_cache m (serve @ st), tt).
Proof.
  intros serve h.
  assert (Hblind : forall m st,
            serve (with_cache m st) = (with_cache m (serve @ st), tt)).
  { intros m st. unfold serve. rewrite (cache_blind_run events m st).
    match goal with |- (_, ?u) = _ => destruct u end. reflexivity. }
  split; [| exact Hblind].
  change (boot h w) with (with_cache ∅ (boot h w)).
  rewrite Hblind. reflexivity.
Qed.

End Cache.

(** ** Every branch of the reconciliation *)

Section Branches.

Context {World : Type} (db_IsNotFound : error -> bool).
Implicit Types (st : State World) (socket : socketio.Socket.t)
  (d : FileUpdateData.t).

(** A credential that does not resolve: the run ends in
    "Invalid API key: <error>" and identity resolution is the only call. *)
Theorem invalid_api_key st socket d w1 err :
  domain.GetUserByApiKey (userService (this st)) (FileUpdateData.ApiKey d)
    (world st) = (w1, inl err) ->
  let st' := processFileUpdateAsync db_IsNotFound socket d @ st in
  out st' = out st ++
    [Emit socket "file:update:ack"
       (finalResponse d "error" ("Invalid API key: " +:+ Error err))]
  /\ new_calls st st' = [CallGetUserByApiKey (FileUpdateData.ApiKey d)]
  /\ world st' = w1.
Proof.
  intros Hu st'. subst st'. run_handler.
  split; [reflexivity |]. split; [calls_norm |]; reflexivity.
Qed.

(** A workspace that cannot be ensured: the error of the service is wrapped
    by [ensureWorkspace] and prefixed again by the caller, and no file
    method is called. *)
Theorem workspace_failure st socket d w1 user w2 err :
  domain.GetUserByApiKey (userService (this st)) (FileUpdateData.ApiKey d)
    (world st) = (w1, inr user) ->
  FileUpdateData.WorkspacePath d <> "" ->
  domain.EnsureWorkspace (workspaceUsecase (this st)) (domain.User.ID user)
    (FileUpdateData.WorkspacePath d) "" w1 = (w2, inl err) ->
  let st' := processFileUpdateAsync db_IsNotFound socket d @ st in
  out st' = out st ++
    [Emit socket "file:update:ack"
       (finalResponse d "error"
          ("Failed to ensure workspace: failed to ensure workspace: "
             +:+ Error err))]
  /\ new_calls st st' =
       [CallGetUserByApiKey (FileUpdateData.ApiKey d);
        CallEnsureWorkspace (domain.User.ID user)
          (FileUpdateData.WorkspacePath d) ""].
Proof.
  intros Hu Hw%eqb_ne Hws st'. subst st'. run_handler.
  split; [reflexivity | calls_norm; reflexivity].
Qed.

(** [initial_scan]/[added], the file exists with another hash: the existing
    record is updated by its identifier with the content and hash of the
    notification; nothing is created and the indexer is not called.  The
    result is "File updated successfully", or
    "Failed to update existing file: <error>" when the update fails. *)
Theorem changed_file_is_updated st socket d w1 user w2 workspace w3 file :
  FileUpdateData.Event d = "initial_scan" \/ FileUpdateData.Event d = "added" ->
  domain.GetUserByApiKey (userService (this st)) (FileUpdateData.ApiKey d)
    (world st) = (w1, inr user) ->
  FileUpdateData.WorkspacePath d <> "" ->
  domain.EnsureWorkspace (workspaceUsecase (this st)) (domain.User.ID user)
    (FileUpdateData.WorkspacePath d) "" w1 = (w2, inr workspace) ->
  domain.GetByPath (workspaceService (this st)) (domain.User.ID user)
    (domain.Workspace.ID workspace) (FileUpdateData.FilePath d) w2
    = (w3, inr file) ->
  domain.WorkspaceFile.Hash file <> FileUpdateData.Hash d ->
  let st' := processFileUpdateAsync db_IsNotFound socket d @ st in
  let updateReq :=
    domain.UpdateWorkspaceFileReq.mk (domain.WorkspaceFile.ID file)
      (Some (FileUpdateData.Content d)) (Some (FileUpdateData.Hash d)) in
  let update := domain.Update (workspaceService (this st)) updateReq w3 in
  new_calls st st' =
    [CallGetUserByApiKey (FileUpdateData.ApiKey d);
     CallEnsureWorkspace (domain.User.ID user)
       (FileUpdateData.WorkspacePath d) "";
     CallGetByPath (domain.User.ID user) (domain.Workspace.ID workspace)
       (FileUpdateData.FilePath d);
     CallUpdate updateReq]
  /\ (forall w4 updated, update = (w4, inr updated) ->
        out st' = out st ++
          [Emit socket "file:update:ack"
             (finalResponse d "success" "File updated successfully")])
  /\ (forall w4 err, update = (w4, inl err) ->
        out st' = out st ++
          [Emit socket "file:update:ack"
             (finalResponse d "error"
                ("Failed to update existing file: " +:+ Error err))]).
Proof.
  intros He Hu Hw%eqb_ne Hws Hf Hh%eqb_ne st' updateReq update.
  subst st' updateReq update.
  split; [| split].
  - destruct He as [He | He]; run_handler; run_case; calls_norm; reflexivity.
  - intros w4 updated Hup.
    destruct He as [He | He]; run_handler; reflexivity.
  - intros w4 err Hup.
    destruct He as [He | He]; run_handler; reflexivity.
Qed.

(** [initial_scan]/[added], the lookup fails with an error that is not
    not-found: the run ends in "Error checking for existing file: <error>"
    and nothing is created. *)
Theorem lookup_error_is_reported st socket d w1 user w2 workspace w3 err :
  FileUpdateData.Event d = "initial_scan" \/ FileUpdateData.Event d = "added" ->
  domain.GetUserByApiKey (userService (this st)) (FileUpdateData.ApiKey d)
    (world st) = (w1, inr user) ->
  FileUpdateData.WorkspacePath d <> "" ->
  domain.EnsureWorkspace (workspaceUsecase (this st)) (domain.User.ID user)
    (FileUpdateData.WorkspacePath d) "" w1 = (w2, inr workspace) ->
  domain.GetByPath (workspaceService (this st)) (domain.User.ID user)
    (domain.Workspace.ID workspace) (FileUpdateData.FilePath d) w2
    = (w3, inl err) ->
  db_IsNotFound err = false ->
  let st' := processFileUpdateAsync db_IsNotFound socket d @ st in
  out st' = out st ++
    [Emit socket "file:update:ack"
       (finalResponse d "error"
          ("Error checking for existing file: " +:+ Error err))]
  /\ new_calls st st' =
       [CallGetUserByApiKey (FileUpdateData.ApiKey d);
        CallEnsureWorkspace (domain.User.ID user)
          (FileUpdateData.WorkspacePath d) "";
        CallGetByPath (domain.User.ID user) (domain.Workspace.ID workspace)
          (FileUpdateData.FilePath d)]
  /\ world st' = w3.
Proof.
  intros He Hu Hw%eqb_ne Hws Hf Hnf st'. subst st'.
  destruct He as [He | He]; run_handler;
    (split; [reflexivity |]; split; [calls_norm |]; reflexivity).
Qed.

(** [initial_scan]/[added], the file is not there: it is created with the
    path, content and hash of the notification under the resolved user and
    workspace.  When the creation fails the run ends in
    "Failed to create file: <error>" without a call of the indexer; when it
    succeeds the indexer gets one file, with the language of the extension
    of the path. *)
Theorem missing_file_is_created st socket d w1 user w2 workspace w3 err :
  FileUpdateData.Event d = "initial_scan" \/ FileUpdateData.Event d = "added" ->
  domain.GetUserByApiKey (userService (this st)) (FileUpdateData.ApiKey d)
    (world st) = (w1, inr user) ->
  FileUpdateData.WorkspacePath d <> "" ->
  domain.EnsureWorkspace (workspaceUsecase (this st)) (domain.User.ID user)
    (FileUpdateData.WorkspacePath d) "" w1 = (w2, inr workspace) ->
  domain.GetByPath (workspaceService (this st)) (domain.User.ID user)
    (domain.Workspace.ID workspace) (FileUpdateData.FilePath d) w2
    = (w3, inl err) ->
  db_IsNotFound err = true ->
  let st' := processFileUpdateAsync db_IsNotFound socket d @ st in
  let createReq :=
    domain.CreateWorkspaceFileReq.mk (FileUpdateData.FilePath d)
      (FileUpdateData.Content d) (FileUpdateData.Hash d)
      (domain.User.ID user) (domain.Workspace.ID workspace) in
  let create := domain.Create (workspaceService (this st)) createReq w3 in
  let first_calls :=
    [CallGetUserByApiKey (FileUpdateData.ApiKey d);
     CallEnsureWorkspace (domain.User.ID user)
       (FileUpdateData.WorkspacePath d) "";
     CallGetByPath (domain.User.ID user) (domain.Workspace.ID workspace)
       (FileUpdateData.FilePath d);
     CallCreate createReq] in
  (forall w4 createErr, create = (w4, inl createErr) ->
     out st' = out st ++
       [Emit socket "file:update:ack"
          (finalResponse d "error"
             ("Failed to create file: " +:+ Error createErr))]
     /\ new_calls st st' = first_calls)
  /\ (forall w4 created, create = (w4, inr created) ->
        new_calls st st' = first_calls ++
          [CallGetAndSave
             (domain.GetAndSaveReq.mk (domain.User.ID user)
                (domain.Workspace.ID workspace)
                [domain.FileMeta.mk (FileUpdateData.FilePath d)
                   (getFileLanguage
                      (getFileExtension (FileUpdateData.FilePath d)))
                   (FileUpdateData.Content d)])]).
Proof.
  intros He Hu Hw%eqb_ne Hws Hf Hnf st' createReq create first_calls.
  subst st' createReq create first_calls. split.
  - intros w4 createErr Hc.
    destruct He as [He | He]; run_handler;
      (split; [reflexivity | calls_norm; reflexivity]).
  - intros w4 created Hc.
    destruct He as [He | He]; run_handler; run_case; calls_norm; reflexivity.
Qed.

(** [modified], the file exists: it is updated by its identifier.  When the
    update fails the run ends in "Failed to update file: <error>" without a
    call of the indexer; when it succeeds the indexer gets the file. *)
Theorem modified_file_is_updated st socket d w1 user w2 workspace w3 file :
  FileUpdateData.Event d = "modified" ->
  domain.GetUserByApiKey (userService (this st)) (FileUpdateData.ApiKey d)
    (world st) = (w1, inr user) ->
  FileUpdateData.WorkspacePath d <> "" ->
  domain.EnsureWorkspace (workspaceUsecase (this st)) (domain.User.ID user)
    (FileUpdateData.WorkspacePath d) "" w1 = (w2, inr workspace) ->
  domain.GetByPath (workspaceService (this st)) (domain.User.ID user)
    (domain.Workspace.ID workspace) (FileUpdateData.FilePath d) w2
    = (w3, inr file) ->
  let st' := processFileUpdateAsync db_IsNotFound socket d @ st in
  let req :=
    domain.UpdateWorkspaceFileReq.mk (domain.WorkspaceFile.ID file)
      (Some (FileUpdateData.Content d)) (Some (FileUpdateData.Hash d)) in
  let update := domain.Update (workspaceService (this st)) req w3 in
  let first_calls :=
    [CallGetUserByApiKey (FileUpdateData.ApiKey d);
     CallEnsureWorkspace (domain.User.ID user)
       (FileUpdateData.WorkspacePath d) "";
     CallGetByPath (domain.User.ID user) (domain.Workspace.ID workspace)
       (FileUpdateData.FilePath d);
     CallUpdate req] in
  (forall w4 err, update = (w4, inl err) ->
     out st' = out st ++
       [Emit socket "file:update:ack"
          (finalResponse d "error" ("Failed to update file: " +:+ Error err))]
     /\ new_calls st st' = first_calls)
  /\ (forall w4 updated, update = (w4, inr updated) ->
        new_calls st st' = first_calls ++
          [CallGetAndSave
             (domain.GetAndSaveReq.mk (domain.User.ID user)
                (domain.Workspace.ID workspace)
                [domain.FileMeta.mk (FileUpdateData.FilePath d)
                   (getFileLanguage
                      (getFileExtension (FileUpdateData.FilePath d)))
                   (FileUpdateData.Content d)])]).
Proof.
  intros He Hu Hw%eqb_ne Hws Hf st' req update first_calls.
  subst st' req update first_calls. split.
  - intros w4 err Hup. run_handler.
    split; [reflexivity | calls_norm; reflexivity].
  - intros w4 updated Hup. run_handler. run_case; calls_norm; reflexivity.
Qed.

(** [deleted]: the file is looked up by path and deleted by its identifier;
    content and hash of the notification play no part and the indexer is
    not called.  The three outcomes are
    "Failed to find file for deletion: <error>", "File deleted successfully"
    and "Failed to delete file: <error>". *)
Theorem deleted_file_is_removed st socket d w1 user w2 workspace :
  FileUpdateData.Event d = "deleted" ->
  domain.GetUserByApiKey (userService (this st)) (FileUpdateData.ApiKey d)
    (world st) = (w1, inr user) ->
  FileUpdateData.WorkspacePath d <> "" ->
  domain.EnsureWorkspace (workspaceUsecase (this st)) (domain.User.ID user)
    (FileUpdateData.WorkspacePath d) "" w1 = (w2, inr workspace) ->
  let st' := processFileUpdateAsync db_IsNotFound socket d @ st in
  let lookup :=
    domain.GetByPath (workspaceService (this st)) (domain.User.ID user)
      (domain.Workspace.ID workspace) (FileUpdateData.FilePath d) w2 in
  let first_calls :=
    [CallGetUserByApiKey (FileUpdateData.ApiKey d);
     CallEnsureWorkspace (domain.User.ID user)
       (FileUpdateData.WorkspacePath d) "";
     CallGetByPath (domain.User.ID user) (domain.Workspace.ID workspace)
       (FileUpdateData.FilePath d)] in
  (forall w3 err, lookup = (w3, inl err) ->
     out st' = out st ++
       [Emit socket "file:update:ack"
          (finalResponse d "error"
             ("Failed to find file for deletion: " +:+ Error err))]
     /\ new_calls st st' = first_calls)
  /\ (forall w3 file w4, lookup = (w3, inr file) ->
        domain.Delete (workspaceService (this st))
          (domain.WorkspaceFile.ID file) w3 = (w4, None) ->
        out st' = out st ++
          [Emit socket "file:update:ack"
             (finalResponse d "success" "File deleted successfully")]
        /\ new_calls st st' =
             first_calls ++ [CallDelete (domain.WorkspaceFile.ID file)])
  /\ (forall w3 file w4 err, lookup = (w3, inr file) ->
        domain.Delete (workspaceService (this st))
          (domain.WorkspaceFile.ID file) w3 = (w4, Some err) ->
        out st' = out st ++
          [Emit socket "file:update:ack"
             (finalResponse d "error"
                ("Failed to delete file: " +:+ Error err))]
        /\ new_calls st st' =
             first_calls ++ [CallDelete (domain.WorkspaceFile.ID file)]).
Proof.
  intros He Hu Hw%eqb_ne Hws st' lookup first_calls.
  subst st' lookup first_calls.
  split; [| split].
  - intros w3 err Hf. run_handler.
    split; [reflexivity | calls_norm; reflexivity].
  - intros w3 file w4 Hf Hd. run_handler.
    split; [reflexivity | calls_norm; reflexivity].
  - intros w3 file w4 err Hf Hd. run_handler.
    split; [reflexivity | calls_norm; reflexivity].
Qed.

(** The keys of the final-result message. *)
Lemma finalResponse_fields d status message :
  exists m,
    finalResponse d status message = MapStringAny m
    /\ m !! "id" = Some (String_ (FileUpdateData.ID d))
    /\ m !! "status" = Some (String_ status)
    /\ m !! "message" = Some (String_ message)
    /\ m !! "file" = Some (String_ (FileUpdateData.FilePath d))
    /\ size m = 4%nat.
Proof.
  eexists. split; [reflexivity |].
  repeat split; by simplify_map_eq.
Qed.

(** Whatever the services answer, the one message a run sends has the four
    keys "id", "status", "message" and "file": the identifier and the path
    are those of the notification, and the status is "success" or
    "error". *)
Theorem final_result_schema st socket d :
  let st' := processFileUpdateAsync db_IsNotFound socket d @ st in
  exists status message m,
    out st' = out st ++ [Emit socket "file:update:ack" (MapStringAny m)]
    /\ (status = "success" \/ status = "error")
    /\ m !! "id" = Some (String_ (FileUpdateData.ID d))
    /\ m !! "status" = Some (String_ status)
    /\ m !! "message" = Some (String_ message)
    /\ m !! "file" = Some (String_ (FileUpdateData.FilePath d))
    /\ size m = 4%nat.
Proof.
  intros st'.
  assert (H : exists status message,
             out st' = out st ++
               [Emit socket "file:update:ack" (finalResponse d status message)]
             /\ (status = "success" \/ status = "error")).
  { subst st'. run_unfold; run_simpl.
    repeat run_case; eexists _, _; (split; [reflexivity | auto]). }
  destruct H as (status & message & Ho & Hs).
  destruct (finalResponse_fields d status message) as (m & Hm & Hfields).
  exists status, message, m. rewrite <- Hm. auto.
Qed.

Ltac no_index Hin :=
  solve [ cbn in Hin;
          repeat (destruct Hin as [Hin | Hin]; [discriminate Hin |]);
          destruct Hin ].

(** Whatever the services answer, a run starts with identity resolution,
    makes at most one of create, update and delete, and calls the indexer
    only as its last call, right after a create or update, with the one
    file of the notification. *)
Theorem one_write_per_notification st socket d :
  let st' := processFileUpdateAsync db_IsNotFound socket d @ st in
  (exists rest,
     new_calls st st' = CallGetUserByApiKey (FileUpdateData.ApiKey d) :: rest)
  /\ length (List.filter is_mutation (new_calls st st')) <= 1
  /\ forall r, In (CallGetAndSave r) (new_calls st st') ->
       (exists before write,
          new_calls st st' = before ++ [write; CallGetAndSave r]
          /\ is_write write = true)
       /\ domain.GetAndSaveReq.FileMetas r =
            [domain.FileMeta.mk (FileUpdateData.FilePath d)
               (getFileLanguage (getFileExtension (FileUpdateData.FilePath d)))
               (FileUpdateData.Content d)].
Proof.
  intros st'. subst st'. run_unfold; run_simpl.
  repeat run_case; calls_norm;
    (split; [eexists; reflexivity |]; split; [cbn; lia |]; intros r Hin;
     first
       [ no_index Hin
       | cbn in Hin;
         repeat (destruct Hin as [Hin | Hin]; [discriminate Hin |]);
         destruct Hin as [Hin | []]; injection Hin as <-;
         split; [eexists [_; _; _], _; split; reflexivity | reflexivity] ]).
Qed.

End Branches.

(** ** The handlers of a connection *)

Section Events.

Context {World : Type} (int64_of_float64 : Z -> Z)
  (db_IsNotFound : error -> bool)
  (json_Unmarshal_FileUpdateData : string -> result FileUpdateData.t)
  (json_Unmarshal_TestPingData : string -> result TestPingData.t)
  (json_Unmarshal_HeartbeatData : string -> result HeartbeatData.t)
  (time_Now : World -> World * Z)
  (time_Format_RFC3339 : Z -> string).
Implicit Types (st : State World) (socket : socketio.Socket.t)
  (data : socketio.EventPayload.t).

Local Abbreviation dispatch :=
  (on int64_of_float64 json_Unmarshal_FileUpdateData
     json_Unmarshal_TestPingData json_Unmarshal_HeartbeatData
     time_Now time_Format_RFC3339).

Local Abbreviation starts :=
  (starts_goroutine json_Unmarshal_FileUpdateData).

Ltac on_unfold :=
  unfold registerDisconnectHandler, registerFileUpdateHandler,
    registerTestPingHandler, registerHeartbeatHandler,
    registerWorkspaceStatsHandler, processFileUpdateData, handleFileUpdate,
    handleTestPing, handleHeartbeat, sendErrorACK, sendACKWithLock,
    mbind, mret, M_bind, M_ret, log, send, go, now;
  run_simpl.

(** Splits on what a handler looks at: the payload, the decoder's answer,
    the callback, the clock. *)
Ltac on_case :=
  match goal with
  | E : socketio.EventPayload.Data ?data = MapStringAny ?m :: ?rest
    |- context [handleFileUpdateFromObject ?i ?sock ?data ?s] =>
      destruct (handleFileUpdateFromObject_spawns i s sock data m rest E)
        as (? & -> & _)
  | |- context [match socketio.EventPayload.Data ?data with _ => _ end] =>
      let E := fresh "E" in
      destruct (socketio.EventPayload.Data data) as [| [] ?] eqn:E
  | |- context [match socketio.EventPayload.Ack ?data with _ => _ end] =>
      let E := fresh "E" in
      destruct (socketio.EventPayload.Ack data) eqn:E
  | |- context [match ?j ?s with inl _ => _ | inr _ => _ end] =>
      let E := fresh "E" in destruct (j s) eqn:E
  | |- context [let (_, _) := time_Now ?w in _] =>
      let E := fresh "E" in destruct (time_Now w) eqn:E
  end; run_simpl.

Ltac extends :=
  first [reflexivity | symmetry; apply app_nil_r
        | rewrite <- app_assoc; reflexivity].

Ltac on_leaf :=
  cbn [decodable andb];
  repeat match goal with
         | H : ?j ?s = _ |- context [?j ?s] => rewrite H
         end;
  split; [reflexivity |]; split; [reflexivity |]; split;
  [ eexists; split; [extends |];
    split; [repeat constructor |]; split; [reflexivity | cbn; lia]
  | eexists; split; [extends |]; split; [repeat constructor | reflexivity] ].

(** What handling one event on [socket] does, whatever the event and its
    payload: no service is called and nothing panics; at most one message is
    sent, on that connection, and it is not a final result; a goroutine is
    started, for that connection, exactly for a file-change event whose
    payload decodes. *)
Lemma on_effects st socket name data :
  let st' := dispatch socket name data @ st in
  calls st' = calls st
  /\ panicked st' = panicked st
  /\ (exists new,
        out st' = out st ++ new
        /\ Forall (addressed_to socket) new
        /\ final_results new = 0%nat
        /\ length new <= 1)
  /\ (exists started,
        goroutines st' = goroutines st ++ started
        /\ Forall (fun g => fst g = socket) started
        /\ length started
           = if starts (Event socket name data) then 1%nat else 0%nat).
Proof.
  intros st'. subst st'. unfold on, starts_goroutine.
  destruct (String.eqb_spec name "disconnect") as [-> | _].
  { on_unfold. on_leaf. }
  destruct (String.eqb_spec name "file:update") as [-> | _].
  { on_unfold. repeat on_case; on_leaf. }
  cbn [andb].
  destruct (String.eqb_spec name "test:ping") as [-> | _].
  { on_unfold. repeat on_case; on_leaf. }
  destruct (String.eqb_spec name "heartbeat") as [-> | _].
  { on_unfold. repeat on_case; on_leaf. }
  destruct (String.eqb_spec name "workspace:stats") as [-> | _].
  { on_unfold. repeat on_case; on_leaf. }
  on_unfold. on_leaf.
Qed.

Local Abbreviation serve :=
  (run int64_of_float64 db_IsNotFound json_Unmarshal_FileUpdateData
     json_Unmarshal_TestPingData json_Unmarshal_HeartbeatData
     time_Now time_Format_RFC3339).

Local Abbreviation handle1 :=
  (handle int64_of_float64 db_IsNotFound json_Unmarshal_FileUpdateData
     json_Unmarshal_TestPingData json_Unmarshal_HeartbeatData
     time_Now time_Format_RFC3339).

(** Handling an event never waits for the services: whatever the event and
    its payload, no service is called and nothing panics (an empty payload
    never reaches the index expression); at most one message is sent, on the
    connection of the event, and it is never a final result; at most one
    goroutine is started, and it carries the connection of the event. *)
Theorem event_handling_is_local st socket name data :
  let st' := dispatch socket name data @ st in
  new_calls st st' = []
  /\ panicked st' = panicked st
  /\ (exists new,
        out st' = out st ++ new
        /\ Forall (addressed_to socket) new
        /\ final_results new = 0%nat
        /\ length new <= 1)
  /\ (exists started,
        goroutines st' = goroutines st ++ started
        /\ Forall (fun g => fst g = socket) started
        /\ length started <= 1).
Proof.
  intros st'.
  destruct (on_effects st socket name data)
    as (Hc & Hp & Ho & (started & Hg & Hs & Hl)).
  fold st' in Hc, Hp, Ho, Hg.
  split; [| split; [exact Hp | split; [exact Ho |]]].
  - apply new_calls_app. rewrite Hc. symmetry. apply app_nil_r.
  - exists started. split; [exact Hg |]. split; [exact Hs |].
    rewrite Hl. destruct (starts _); lia.
Qed.

Lemma answers_app l1 l2 : answers (l1 ++ l2) = answers l1 ++ answers l2.
Proof. unfold answers. by rewrite map_app, concat_app. Qed.

Lemma answers_no_final l : final_results l = 0%nat -> answers l = [].
Proof.
  unfold final_results, answers.
  induction l as [| e l IH]; [done |]. cbn [List.filter map concat].
  destruct (is_final_result e) eqn:He; [discriminate |].
  intros Hl. rewrite (IH Hl), app_nil_r.
  destruct e as [| socket event []]; try reflexivity.
  cbn in *. by rewrite He.
Qed.

Lemma answer_key_finalResponse socket d status message :
  answer_key (Emit socket "file:update:ack" (finalResponse d status message))
  = [notification_key (socket, d)].
Proof.
  destruct (finalResponse_fields d status message)
    as (m & -> & Hid & _ & _ & Hfile & _).
  cbn. by rewrite Hid, Hfile.
Qed.

(** Splits as [on_case] does, with the map decoded to the notification it
    stands for. *)
Ltac on_case_decoded :=
  match goal with
  | E : socketio.EventPayload.Data ?data = MapStringAny ?m :: ?rest
    |- context [handleFileUpdateFromObject ?i ?sock ?data ?s] =>
      rewrite (handleFileUpdateFromObject_decodes i s sock data m rest E)
  | |- context [match socketio.EventPayload.Data ?data with _ => _ end] =>
      let E := fresh "E" in
      destruct (socketio.EventPayload.Data data) as [| [] ?] eqn:E
  | |- context [match socketio.EventPayload.Ack ?data with _ => _ end] =>
      let E := fresh "E" in
      destruct (socketio.EventPayload.Ack data) eqn:E
  | |- context [match ?j ?s with inl _ => _ | inr _ => _ end] =>
      let E := fresh "E" in destruct (j s) eqn:E
  | |- context [let (_, _) := time_Now ?w in _] =>
      let E := fresh "E" in destruct (time_Now w) eqn:E
  end; run_simpl.

Ltac started_leaf :=
  cbn [notification_of];
  repeat match goal with
         | H : ?j ?s = _ |- context [?j ?s] => rewrite H
         end;
  first [reflexivity | symmetry; apply app_nil_r].

(** The goroutines an event starts are those of the notifications it hands
    over. *)
Lemma on_started st socket name data :
  goroutines (dispatch socket name data @ st)
  = goroutines st
    ++ accepted int64_of_float64 json_Unmarshal_FileUpdateData
         (Event socket name data).
Proof.
  unfold on, accepted.
  destruct (String.eqb_spec name "disconnect") as [-> | _].
  { on_unfold. started_leaf. }
  destruct (String.eqb_spec name "file:update") as [-> | _].
  { on_unfold. repeat on_case_decoded; started_leaf. }
  destruct (String.eqb_spec name "test:ping") as [-> | _].
  { on_unfold. repeat on_case_decoded; started_leaf. }
  destruct (String.eqb_spec name "heartbeat") as [-> | _].
  { on_unfold. repeat on_case_decoded; started_leaf. }
  destruct (String.eqb_spec name "workspace:stats") as [-> | _].
  { on_unfold. repeat on_case_decoded; started_leaf. }
  on_unfold. started_leaf.
Qed.

Lemma handle_answers st i :
  answers (out (handle1 i @ st))
    ++ (notification_key <$> goroutines (handle1 i @ st))
  ≡ₚ answers (out st) ++ (notification_key <$> goroutines st)
     ++ (notification_key
           <$> accepted int64_of_float64 json_Unmarshal_FileUpdateData i).
Proof.
  destruct i as [socket | socket name data | n]; cbn [handle accepted].
  - unfold handleConnection, sendServerStatus, mbind, M_bind, log, send.
    run_simpl. rewrite answers_app. cbn. by rewrite !app_nil_r.
  - destruct (on_effects st socket name data)
      as (_ & _ & (new & -> & _ & Hf & _) & _).
    rewrite on_started, answers_app, (answers_no_final new Hf), app_nil_r.
    by rewrite fmap_app.
  - rewrite fmap_nil, app_nil_r.
    destruct (goroutines st !! n) as [[socket d] |] eqn:Hn.
    + destruct (schedule_waiting db_IsNotFound st socket d n Hn)
        as ((status & message & ->) & ->).
      rewrite answers_app. cbn [answers map concat].
      rewrite answer_key_finalResponse, app_nil_r, <- app_assoc.
      apply Permutation_app_head.
      rewrite <- (take_drop_middle (goroutines st) n (socket, d) Hn) at 3.
      rewrite !fmap_app, fmap_cons. cbn [app].
      apply Permutation_middle.
    + unfold schedule. rewrite Hn. reflexivity.
Qed.

(** Every notification handed over is answered once: over any sequence of
    connections, events and goroutine runs, the notifications answered by a
    final result together with those whose goroutine still waits are, as a
    multiset of (connection, identifier, path), those of the state the run
    started in together with the ones the file-change events of the run
    stand for.  From construction on, where nothing is answered and nothing
    waits, each such notification is either answered by exactly one final
    result or still waiting, and no final result answers anything else. *)
Theorem every_notification_is_answered_once events st :
  let st' := serve events @ st in
  answers (out st') ++ (notification_key <$> goroutines st')
  ≡ₚ answers (out st) ++ (notification_key <$> goroutines st)
     ++ (notification_key
           <$> concat (map (accepted int64_of_float64
                              json_Unmarshal_FileUpdateData) events)).
Proof.
  cbv zeta. revert st.
  induction events as [| i events IH]; intros st; cbn [run map concat].
  - by rewrite fmap_nil, app_nil_r.
  - unfold mbind, M_bind.
    pose proof (handle_answers st i) as Hstep.
    destruct (handle1 i st) as [st1 []]. cbn [fst] in Hstep.
    rewrite IH, app_assoc, Hstep, fmap_app.
    by rewrite <- !app_assoc.
Qed.

Lemma handle_within (sockets : list socketio.Socket.t) st i :
  Forall (fun s => s ∈ sockets) (sockets_of i) ->
  Forall (within sockets) (out st) ->
  Forall (fun g => fst g ∈ sockets) (goroutines st) ->
  Forall (within sockets) (out (handle1 i @ st))
  /\ Forall (fun g => fst g ∈ sockets) (goroutines (handle1 i @ st)).
Proof.
  intros Hi Ho Hg.
  destruct i as [socket | socket name data | n]; cbn [handle sockets_of] in *.
  - apply Forall_cons_1 in Hi as [Hs _].
    unfold handleConnection, sendServerStatus, mbind, M_bind, log, send.
    run_simpl. split; [| exact Hg].
    apply Forall_app. split; [exact Ho |]. by repeat constructor.
  - apply Forall_cons_1 in Hi as [Hs _].
    destruct (on_effects st socket name data)
      as (_ & _ & (new & -> & Hnew & _) & (started & -> & Hst & _)).
    split; apply Forall_app; (split; [assumption |]).
    + eapply Forall_impl; [exact Hnew |].
      intros [] Ha; cbn in *; [exact I | by subst].
    + eapply Forall_impl; [exact Hst |]. intros g ->. exact Hs.
  - destruct (goroutines st !! n) as [[socket d] |] eqn:Hn.
    + destruct (schedule_waiting db_IsNotFound st socket d n Hn)
        as ((status & message & ->) & ->).
      assert (Hs : socket ∈ sockets).
      { rewrite Forall_lookup in Hg. apply (Hg n (socket, d) Hn). }
      split.
      * apply Forall_app. split; [exact Ho |]. by repeat constructor.
      * apply Forall_app. split; [by apply Forall_take | by apply Forall_drop].
    + unfold schedule. rewrite Hn. cbn [fst]. by split.
Qed.

Lemma run_within (sockets : list socketio.Socket.t) events st :
  Forall (fun s => s ∈ sockets) (concat (map sockets_of events)) ->
  Forall (within sockets) (out st) ->
  Forall (fun g => fst g ∈ sockets) (goroutines st) ->
  Forall (within sockets) (out (serve events @ st)).
Proof.
  revert st. induction events as [| i events IH]; intros st He Ho Hg.
  - exact Ho.
  - cbn [run map concat] in *. apply Forall_app in He as [Hi He].
    unfold mbind, M_bind.
    destruct (handle_within sockets st i Hi Ho Hg) as [Ho' Hg'].
    destruct (handle1 i st) as [st1 []]. cbn [fst] in *.
    by apply IH.
Qed.

(** Messages stay on their connections: from construction on, every
    message emitted in a run goes to a connection that connected or sent an
    event in that run. *)
Theorem messages_stay_on_their_connections events h w :
  Forall (within (concat (map sockets_of events)))
    (out (serve events @ boot h w)).
Proof.
  apply run_within.
  - apply Forall_forall. auto.
  - constructor.
  - constructor.
Qed.

Local Abbreviation fileUpdate :=
  (registerFileUpdateHandler int64_of_float64 json_Unmarshal_FileUpdateData).

(** A file-change event without a payload is answered "No data provided",
    and one whose first element is neither a string nor a map is answered
    "Invalid data format - expected string or object"; neither starts a
    goroutine. *)
Theorem other_payload_shapes_are_rejected st socket data :
  let st' := fileUpdate socket data @ st in
  (socketio.EventPayload.Data data = [] ->
   out st' = out st ++ replies data (error_response "No data provided")
   /\ goroutines st' = goroutines st)
  /\ (forall v rest,
        socketio.EventPayload.Data data = v :: rest ->
        (forall s, v <> String_ s) ->
        (forall m, v <> MapStringAny m) ->
        out st' = out st ++
          replies data
            (error_response "Invalid data format - expected string or object")
        /\ goroutines st' = goroutines st).
Proof.
  intros st'. subst st'. unfold replies. split.
  - intros Hd. on_unfold. rewrite Hd.
    destruct (socketio.EventPayload.Ack data); run_simpl;
      rewrite ?app_nil_r; auto.
  - intros v rest Hd Hs Hm. on_unfold. rewrite Hd.
    destruct v; try (by exfalso; eapply Hs); try (by exfalso; eapply Hm);
      run_simpl; destruct (socketio.EventPayload.Ack data); run_simpl;
      rewrite ?app_nil_r; auto.
Qed.


Local Abbreviation heartbeat :=
  (registerHeartbeatHandler World json_Unmarshal_HeartbeatData time_Now).

(** The heartbeat exchange.  An empty payload is answered
    "No heartbeat data"; a string that does not decode is answered
    "Invalid heartbeat data" without reading the clock; a string that
    decodes is answered with status "ok", the time read from the clock and
    the identifier of the connection; any other payload gets no answer at
    all, with or without a callback. *)
Theorem heartbeat_exchange st socket data :
  let st' := heartbeat socket data @ st in
  (socketio.EventPayload.Data data = [] ->
   out st' = out st ++ replies data (error_response "No heartbeat data")
   /\ world st' = world st)
  /\ (forall s rest err,
        socketio.EventPayload.Data data = String_ s :: rest ->
        json_Unmarshal_HeartbeatData s = inl err ->
        out st' = out st ++
          replies data (error_response "Invalid heartbeat data")
        /\ world st' = world st)
  /\ (forall s rest heartbeatData w t,
        socketio.EventPayload.Data data = String_ s :: rest ->
        json_Unmarshal_HeartbeatData s = inr heartbeatData ->
        time_Now (world st) = (w, t) ->
        out st' = out st ++
          replies data
            (MapStringAny
               (<["status" := String_ "ok"]>
               (<["serverTime" := Int64 t]>
               (<["socketId" := String_ (socketio.Socket.Id socket)]> ∅))))
        /\ world st' = w)
  /\ (forall v rest,
        socketio.EventPayload.Data data = v :: rest ->
        (forall s, v <> String_ s) ->
        out st' = out st /\ world st' = world st).
Proof.
  intros st'. subst st'. unfold replies. split; [| split; [| split]].
  - intros Hd. on_unfold. rewrite Hd.
    destruct (socketio.EventPayload.Ack data); run_simpl;
      rewrite ?app_nil_r; auto.
  - intros s rest err Hd Hj. on_unfold. rewrite Hd, Hj. run_simpl.
    destruct (socketio.EventPayload.Ack data); run_simpl;
      rewrite ?app_nil_r; auto.
  - intros s rest heartbeatData w t Hd Hj Ht. on_unfold.
    rewrite Hd, Hj. run_simpl. rewrite Ht. run_simpl.
    destruct (socketio.EventPayload.Ack data); run_simpl;
      rewrite ?app_nil_r; auto.
  - intros v rest Hd Hs. on_unfold. rewrite Hd.
    destruct v; try (by exfalso; eapply Hs); run_simpl; auto.
Qed.

Local Abbreviation testPing :=
  (registerTestPingHandler World json_Unmarshal_TestPingData time_Now
     time_Format_RFC3339).

(** The ping exchange.  A string that decodes is answered with one
    "test:pong" on the pinging connection, which echoes the decoded ping and
    carries two readings of the clock; every other payload (none, not a
    string, a string that does not decode) is dropped without any message,
    and the callback of the event is never used. *)
Theorem ping_exchange st socket data :
  let st' := testPing socket data @ st in
  (forall s rest pingData w1 t1 w2 t2,
     socketio.EventPayload.Data data = String_ s :: rest ->
     json_Unmarshal_TestPingData s = inr pingData ->
     time_Now (world st) = (w1, t1) ->
     time_Now w1 = (w2, t2) ->
     out st' = out st ++
       [Emit socket "test:pong"
          (MapStringAny
             (<["timestamp" := Int64 t1]>
             (<["serverTime" := String_ (time_Format_RFC3339 t2)]>
             (<["message" := String_ "Pong from MonkeyCode server"]>
             (<["receivedPing" := Struct_TestPingData pingData]>
             (<["socketId" := String_ (socketio.Socket.Id socket)]>
             (<["serverStatus" := String_ "ok"]> ∅)))))))]
     /\ world st' = w2)
  /\ (forall s rest err,
        socketio.EventPayload.Data data = String_ s :: rest ->
        json_Unmarshal_TestPingData s = inl err ->
        out st' = out st /\ world st' = world st)
  /\ ((forall s rest, socketio.EventPayload.Data data <> String_ s :: rest) ->
      out st' = out st /\ world st' = world st).
Proof.
  intros st'. subst st'. split; [| split].
  - intros s rest pingData w1 t1 w2 t2 Hd Hj Ht1 Ht2. on_unfold.
    rewrite Hd, Hj. run_simpl. rewrite Ht1. run_simpl. rewrite Ht2.
    run_simpl. auto.
  - intros s rest err Hd Hj. on_unfold. rewrite Hd, Hj. run_simpl. auto.
  - intros Hd. on_unfold.
    destruct (socketio.EventPayload.Data data) as [| [] ?]; run_simpl; auto.
    by exfalso; eapply Hd.
Qed.

End Events.

(** ** Decoding a map, and the extension of a path *)

Section Decoding.

Context {World : Type} (int64_of_float64 : Z -> Z).
Implicit Types (st : State World) (socket : socketio.Socket.t)
  (data : socketio.EventPayload.t).

(** The notification decoded from a map, field by field: each of "id",
    "filePath", "event", "hash", "content", "apiKey" and "workspacePath"
    is copied when the map holds a string under that key and is empty
    otherwise (key missing, or a value of another type); "timestamp" is
    converted when it is a [float64] and is zero otherwise.  Decoding never
    fails, and no field depends on another key. *)
Theorem map_fields_are_copied st socket data dataMap rest :
  socketio.EventPayload.Data data = MapStringAny dataMap :: rest ->
  let r := handleFileUpdateFromObject int64_of_float64 socket data st in
  let text key := default "" (assert_string (dataMap !! key)) in
  exists d,
    goroutines (fst r) = goroutines st ++ [(socket, d)]
    /\ snd r = immediateAck d
    /\ FileUpdateData.ID d = text "id"
    /\ FileUpdateData.FilePath d = text "filePath"
    /\ FileUpdateData.Event d = text "event"
    /\ FileUpdateData.Hash d = text "hash"
    /\ FileUpdateData.Content d = text "content"
    /\ FileUpdateData.ApiKey d = text "apiKey"
    /\ FileUpdateData.WorkspacePath d = text "workspacePath"
    /\ FileUpdateData.Timestamp d
       = default 0%Z
           (int64_of_float64 <$> assert_float64 (dataMap !! "timestamp")).
Proof.
  intros Hd r text. subst r text.
  unfold handleFileUpdateFromObject. rewrite Hd.
  eexists. split; [reflexivity |]. split; [reflexivity |].
  repeat match goal with
         | |- context [assert_string ?x] => destruct (assert_string x)
         | |- context [assert_float64 ?x] => destruct (assert_float64 x)
         end;
    repeat split.
Qed.

End Decoding.

Lemma after_last_dot_None (s : string) :
  after_last_dot s = None <-> dot_free s = true.
Proof.
  induction s as [| c s IH]; cbn; [done |].
  destruct (after_last_dot s) as [ext |].
  - split; [done |]. intros [_ H]%andb_true_iff. by apply IH in H.
  - destruct (Ascii.eqb c "."); cbn; [done |]. by rewrite <- IH.
Qed.

Lemma after_last_dot_Some (s ext : string) :
  after_last_dot s = Some ext -> dot_free ext = true.
Proof.
  induction s as [| c s IH]; cbn; [done |].
  destruct (after_last_dot s) as [ext' |] eqn:Hs.
  - intros [= <-]. by apply IH.
  - destruct (Ascii.eqb c "."); [| done].
    intros [= <-]. by apply after_last_dot_None.
Qed.

Lemma after_last_dot_join (before ext : string) :
  dot_free ext = true ->
  after_last_dot (before +:+ String "." ext) = Some ext.
Proof.
  intros He. induction before as [| c before IH]; simpl.
  - apply after_last_dot_None in He. by rewrite He.
  - by rewrite IH.
Qed.

(** [getFileExtension] gives the text after the last ['.'] of the path:
    the result never holds a ['.']; a path without one has the empty
    extension; and for any text before and any dot-free [ext], the path
    [before.ext] has extension [ext]. *)
Theorem extension_is_text_after_last_dot (filePath : string) :
  dot_free (getFileExtension filePath) = true
  /\ (dot_free filePath = true -> getFileExtension filePath = "")
  /\ (forall before ext,
        filePath = before +:+ String "." ext ->
        dot_free ext = true ->
        getFileExtension filePath = ext).
Proof.
  unfold getFileExtension. split; [| split].
  - destruct (after_last_dot filePath) as [ext |] eqn:H; [| done].
    by apply after_last_dot_Some in H.
  - intros H. apply after_last_dot_None in H. by rewrite H.
  - intros before ext -> He. by rewrite after_last_dot_join.
Qed.

(** A path without a ['.'], or whose text after the last ['.'] is none of
    the extensions the handler knows, is submitted to the indexer with the
    empty language; the extensions "cpp", "cc" and "cxx" share one
    language. *)
Theorem language_of_path (filePath : string) :
  (dot_free filePath = true ->
   getFileLanguage (getFileExtension filePath) = domain.CodeLanguageTypeLit "")
  /\ (getFileExtension filePath ∉
        ["go"; "py"; "java"; "js"; "ts"; "jsx"; "tsx"; "html"; "css"; "php";
         "rs"; "swift"; "kt"; "c"; "cpp"; "cc"; "cxx"] ->
      getFileLanguage (getFileExtension filePath)
      = domain.CodeLanguageTypeLit "")
  /\ (forall before ext,
        filePath = before +:+ String "." ext ->
        ext ∈ ["cpp"; "cc"; "cxx"] ->
        getFileLanguage (getFileExtension filePath)
        = domain.CodeLanguageTypeCpp).
Proof.
  split; [| split].
  - intros H. unfold getFileExtension.
    apply after_last_dot_None in H. by rewrite H.
  - generalize (getFileExtension filePath). intros ext H.
    unfold getFileLanguage.
    repeat match goal with
           | |- context [String.eqb ext ?k] =>
               destruct (String.eqb_spec ext k) as [-> | _];
               [exfalso; apply H; set_solver |]
           end.
    reflexivity.
  - intros before ext -> He.
    rewrite !elem_of_cons, elem_of_nil in He.
    unfold getFileExtension.
    destruct He as [-> | [-> | [-> | []]]];
      by rewrite after_last_dot_join.
Qed.

(** ** Runs against the in-memory services *)

Lemma renamed_is_unknown : "renamed" ∉ known_events.
Proof.
  unfold known_events. intros H.
  repeat (apply elem_of_cons in H as [H | H]; [discriminate H |]).
  by apply elem_of_nil in H.
Qed.

(** The same scan of [main.go] sent a second time: nothing is written. *)
Lemma unchanged_file_is_skipped_witness :
  out (Fake.reconcile Fake.scan_main_go @ Fake.scanned)
  = out Fake.scanned ++
      [Emit Fake.socket "file:update:ack"
         (finalResponse Fake.scan_main_go "success"
            "File is already up-to-date")]
  /\ Forall (fun c => is_mutation c = false)
       (new_calls Fake.scanned (Fake.reconcile Fake.scan_main_go @ Fake.scanned)).
Proof.
  destruct (unchanged_file_is_skipped Fake.IsNotFound Fake.scanned Fake.socket
              Fake.scan_main_go (world Fake.scanned) Fake.alice
              (world Fake.scanned) Fake.proj (world Fake.scanned) Fake.main_go)
    as (Ho & _ & Hm & _).
  - left. reflexivity.
  - vm_compute. reflexivity.
  - discriminate.
  - vm_compute. reflexivity.
  - vm_compute. reflexivity.
  - reflexivity.
  - split; [exact Ho | exact Hm].
Defined.

(** An empty workspace root, from a known user. *)
Lemma empty_workspace_root_witness :
  out (Fake.reconcile Fake.scan_no_root @ Fake.fresh)
  = [Emit Fake.socket "file:update:ack"
       (finalResponse Fake.scan_no_root "error"
          "Failed to ensure workspace: no workspace path provided")]
  /\ calls (Fake.reconcile Fake.scan_no_root @ Fake.fresh)
     = [CallGetUserByApiKey "key-alice"].
Proof.
  destruct (empty_workspace_root Fake.IsNotFound Fake.fresh Fake.socket
              Fake.scan_no_root (world Fake.fresh) Fake.alice)
    as (Ho & _ & Hc & _).
  - vm_compute. reflexivity.
  - reflexivity.
  - split; [exact Ho | exact Hc].
Defined.

(** C2 as stated fails: for the unsupported kind "renamed" from a known user
    the workspace is ensured in the Workspace Store before the kind is
    looked at, and from an unknown user the run ends in
    "Invalid API key: ..." instead of "Unknown event type: renamed". *)
Lemma unknown_event_reaches_store :
  ~ Forall (fun c => is_store_call c = false)
      (new_calls Fake.fresh (Fake.reconcile Fake.rename_main_go @ Fake.fresh))
  /\ out (Fake.reconcile Fake.rename_bad_key @ Fake.fresh)
     = [Emit Fake.socket "file:update:ack"
          (finalResponse Fake.rename_bad_key "error"
             "Invalid API key: unknown key")].
Proof.
  split.
  - intros H.
    assert (Hc : new_calls Fake.fresh
                   (Fake.reconcile Fake.rename_main_go @ Fake.fresh)
                 = [CallGetUserByApiKey "key-alice";
                    CallEnsureWorkspace "alice" "/home/alice/proj" ""])
      by (vm_compute; reflexivity).
    rewrite Hc in H. inversion H as [| ? ? _ H']. inversion H' as [| ? ? Hs _].
    discriminate Hs.
  - vm_compute. reflexivity.
Qed.

Lemma unknown_event_type_witness :
  Forall (fun c => is_file_call c = false)
    (new_calls Fake.fresh (Fake.reconcile Fake.rename_main_go @ Fake.fresh))
  /\ out (Fake.reconcile Fake.rename_main_go @ Fake.fresh)
     = [Emit Fake.socket "file:update:ack"
          (finalResponse Fake.rename_main_go "error"
             "Unknown event type: renamed")].
Proof.
  destruct (unknown_event_type Fake.IsNotFound Fake.fresh Fake.socket
              Fake.rename_main_go renamed_is_unknown) as [Hf Hk].
  split; [exact Hf |].
  destruct (Hk (world Fake.fresh) Fake.alice (world Fake.fresh) Fake.proj)
    as [Ho _].
  - vm_compute. reflexivity.
  - discriminate.
  - vm_compute. reflexivity.
  - exact Ho.
Defined.

(** A [modified] notification for a file the store does not have. *)
Lemma modified_never_creates_witness :
  Forall (fun c => is_create c = false)
    (new_calls Fake.fresh (Fake.reconcile Fake.modify_main_go @ Fake.fresh))
  /\ out (Fake.reconcile Fake.modify_main_go @ Fake.fresh)
     = [Emit Fake.socket "file:update:ack"
          (finalResponse Fake.modify_main_go "error"
             "Failed to find file for update: not found")].
Proof.
  destruct (modified_never_creates Fake.IsNotFound Fake.fresh Fake.socket
              Fake.modify_main_go eq_refl) as [Hf Hk].
  split; [exact Hf |].
  destruct (Hk (world Fake.fresh) Fake.alice (world Fake.fresh) Fake.proj
              (world Fake.fresh) Fake.notFound) as [Ho _].
  - vm_compute. reflexivity.
  - discriminate.
  - vm_compute. reflexivity.
  - vm_compute. reflexivity.
  - exact Ho.
Defined.

(** The scan of [main.go] arriving as a JSON document with an
    acknowledgement callback. *)
Lemma two_phase_ack_witness :
  Json.Unmarshal_FileUpdateData Fake.scan_document = inr Fake.scan_main_go
  /\ out (Fake.receive_json Fake.payload_document @ Fake.fresh)
     = [AckReply 14 (immediateAck Fake.scan_main_go)]
  /\ goroutines (Fake.receive_json Fake.payload_document @ Fake.fresh)
     = [(Fake.socket, Fake.scan_main_go)]
  /\ exists status message,
       out (schedule Fake.IsNotFound 0
              @ (Fake.receive_json Fake.payload_document @ Fake.fresh))
       = [AckReply 14 (immediateAck Fake.scan_main_go);
          Emit Fake.socket "file:update:ack"
            (finalResponse Fake.scan_main_go status message)]
       /\ correlation_id (finalResponse Fake.scan_main_go status message)
          = correlation_id (immediateAck Fake.scan_main_go).
Proof.
  assert (Hj : Json.Unmarshal_FileUpdateData Fake.scan_document
               = inr Fake.scan_main_go) by (vm_compute; reflexivity).
  destruct (two_phase_ack Fake.IsNotFound (fun bits => bits)
              Json.Unmarshal_FileUpdateData Fake.fresh Fake.socket
              Fake.payload_document (String_ Fake.scan_document) [] 14%nat
              Fake.scan_main_go)
    as (_ & (Ho & Hg) & (_ & Hid) & Hlater).
  - reflexivity.
  - cbn [notification_of]. rewrite Hj. reflexivity.
  - reflexivity.
  - split; [exact Hj |]. split; [exact Ho |]. split; [exact Hg |].
    destruct (Hlater (Fake.receive_json Fake.payload_document @ Fake.fresh)
                0%nat) as (status & message & Ho' & Hid' & _).
    + unfold Fake.receive_json. rewrite Hg. reflexivity.
    + exists status, message. split.
      * cbv zeta in Ho'. rewrite Ho'. unfold Fake.receive_json. rewrite Ho.
        reflexivity.
      * rewrite Hid, Hid'. reflexivity.
Defined.

(** C4 as stated fails twice.  The text "[]" is well-formed JSON, yet it is
    answered "Invalid data format" and no goroutine is started, so there is
    neither a "received" reply nor a final result.  And for the scan
    document, when the goroutine started by the decoding step runs before
    the reply is written, the final result comes first and the "received"
    reply after it. *)
Lemma received_reply_is_not_guaranteed :
  (Json.valid "[]" = true
   /\ out (Fake.receive_json Fake.payload_array @ Fake.fresh)
      = [AckReply 15 (error_response "Invalid data format")]
   /\ goroutines (Fake.receive_json Fake.payload_array @ Fake.fresh) = [])
  /\ out (sendACKWithLock Fake.payload_document
            (immediateAck Fake.scan_main_go)
            @ (schedule Fake.IsNotFound 0
                 @ (handleFileUpdate Json.Unmarshal_FileUpdateData Fake.socket
                      Fake.scan_document @ Fake.fresh)))
     = [Emit Fake.socket "file:update:ack"
          (finalResponse Fake.scan_main_go "success"
             "File created successfully");
        AckReply 14 (immediateAck Fake.scan_main_go)].
Proof. repeat split; vm_compute; reflexivity. Qed.

(** The payload of the malformed-payload test. *)
Lemma malformed_json_is_rejected_witness :
  out (Fake.receive Fake.payload_broken @ Fake.fresh)
  = [AckReply 8 (error_response "Invalid data format")]
  /\ goroutines (Fake.receive Fake.payload_broken @ Fake.fresh) = []
  /\ calls (Fake.receive Fake.payload_broken @ Fake.fresh) = [].
Proof.
  destruct (malformed_json_is_rejected (fun bits => bits)
              Fake.json_Unmarshal_FileUpdateData Fake.fresh Fake.socket
              Fake.payload_broken "not-json{" []
              (errors_New "invalid character"))
    as (_ & Ho & Hg & Hc & _).
  - reflexivity.
  - vm_compute. reflexivity.
  - split; [exact Ho |]. split; [exact Hg | exact Hc].
Defined.

(** The indexer is down: the first scan still ends in "File created
    successfully", and a later modification in "File updated
    successfully". *)
Lemma indexer_failure_is_not_propagated_witness :
  out (Fake.reconcile Fake.scan_main_go @ Fake.fresh_indexer_down)
  = [Emit Fake.socket "file:update:ack"
       (finalResponse Fake.scan_main_go "success"
          "File created successfully")]
  /\ out (Fake.reconcile Fake.modify_main_go @ Fake.scanned_indexer_down)
     = out Fake.scanned_indexer_down ++
         [Emit Fake.socket "file:update:ack"
            (finalResponse Fake.modify_main_go "success"
               "File updated successfully")].
Proof.
  split.
  - destruct (indexer_failure_is_not_propagated Fake.IsNotFound
                Fake.fresh_indexer_down Fake.socket Fake.scan_main_go
                (world Fake.fresh_indexer_down) Fake.alice
                (world Fake.fresh_indexer_down) Fake.proj) as [Hcreate _].
    + vm_compute. reflexivity.
    + discriminate.
    + vm_compute. reflexivity.
    + eapply Hcreate.
      * left. reflexivity.
      * vm_compute. reflexivity.
      * reflexivity.
      * vm_compute. reflexivity.
  - destruct (indexer_failure_is_not_propagated Fake.IsNotFound
                Fake.scanned_indexer_down Fake.socket Fake.modify_main_go
                (world Fake.scanned_indexer_down) Fake.alice
                (world Fake.scanned_indexer_down) Fake.proj) as [_ Hupdate].
    + vm_compute. reflexivity.
    + discriminate.
    + vm_compute. reflexivity.
    + eapply Hupdate.
      * reflexivity.
      * vm_compute. reflexivity.
      * vm_compute. reflexivity.
Defined.

(** C8 as stated fails: a scan with an empty path from a known user, in a
    workspace that resolves, is looked up and created under the empty path,
    and the run ends in success. *)
Lemma empty_file_path_is_created :
  new_calls Fake.fresh (Fake.reconcile Fake.scan_no_path @ Fake.fresh)
  = [CallGetUserByApiKey "key-alice";
     CallEnsureWorkspace "alice" "/home/alice/proj" "";
     CallGetByPath "alice" "alice@/home/alice/proj" "";
     CallCreate
       (domain.CreateWorkspaceFileReq.mk "" "stray" "h0" "alice"
          "alice@/home/alice/proj");
     CallGetAndSave
       (domain.GetAndSaveReq.mk "alice" "alice@/home/alice/proj"
          [domain.FileMeta.mk "" (domain.CodeLanguageTypeLit "") "stray"])]
  /\ out (Fake.reconcile Fake.scan_no_path @ Fake.fresh)
     = [Emit Fake.socket "file:update:ack"
          (finalResponse Fake.scan_no_path "success"
             "File created successfully")].
Proof. split; vm_compute; reflexivity. Qed.

(** The scan with the empty path, then its deletion: both succeed. *)
Lemma empty_file_path_is_reconciled_witness :
  (out (Fake.reconcile Fake.scan_no_path @ Fake.fresh)
   = [Emit Fake.socket "file:update:ack"
        (finalResponse Fake.scan_no_path "success"
           "File created successfully")]
   /\ new_calls Fake.fresh (Fake.reconcile Fake.scan_no_path @ Fake.fresh)
      = [CallGetUserByApiKey "key-alice";
         CallEnsureWorkspace "alice" "/home/alice/proj" "";
         CallGetByPath "alice" "alice@/home/alice/proj" "";
         CallCreate
           (domain.CreateWorkspaceFileReq.mk "" "stray" "h0" "alice"
              "alice@/home/alice/proj");
         CallGetAndSave
           (domain.GetAndSaveReq.mk "alice" "alice@/home/alice/proj"
              [domain.FileMeta.mk "" (domain.CodeLanguageTypeLit "")
                 "stray"])])
  /\ out (Fake.reconcile Fake.delete_no_path @ Fake.stray_scanned)
     = out Fake.stray_scanned ++
         [Emit Fake.socket "file:update:ack"
            (finalResponse Fake.delete_no_path "success"
               "File deleted successfully")].
Proof.
  split.
  - destruct (empty_file_path_is_reconciled Fake.IsNotFound Fake.fresh
                Fake.socket Fake.scan_no_path (world Fake.fresh) Fake.alice
                (world Fake.fresh) Fake.proj) as (Hscan & _).
    + reflexivity.
    + vm_compute. reflexivity.
    + discriminate.
    + vm_compute. reflexivity.
    + destruct (Hscan (or_introl eq_refl)) as (_ & _ & _ & _ & Hcreated & _).
      eapply (Hcreated (world Fake.fresh) Fake.notFound).
      * vm_compute. reflexivity.
      * reflexivity.
      * vm_compute. reflexivity.
  - destruct (empty_file_path_is_reconciled Fake.IsNotFound Fake.stray_scanned
                Fake.socket Fake.delete_no_path (world Fake.stray_scanned)
                Fake.alice (world Fake.stray_scanned) Fake.proj)
      as (_ & _ & Hdelete).
    + reflexivity.
    + vm_compute. reflexivity.
    + discriminate.
    + vm_compute. reflexivity.
    + destruct (Hdelete eq_refl) as (_ & Hok & _).
      destruct (Hok (world Fake.stray_scanned)
                  (domain.WorkspaceFile.mk
                     (Fake.fileID (Fake.workspaceID "alice" "/home/alice/proj")
                        "") "h0")
                  (Fake.empty_store true)) as [Ho _].
      * vm_compute. reflexivity.
      * vm_compute. reflexivity.
      * exact Ho.
Defined.

(** A map that carries a "previousHash". *)
Lemma map_payload_drops_previousHash_witness :
  Fake.map_with_previousHash !! "previousHash" = Some (String_ "h1")
  /\ exists d,
       goroutines
         (handleFileUpdateFromObject (fun bits => bits) Fake.socket
            Fake.payload_map @ Fake.fresh) = [(Fake.socket, d)]
       /\ FileUpdateData.PreviousHash d = "".
Proof.
  split; [vm_compute; reflexivity |].
  destruct (map_payload_drops_previousHash (fun bits => bits) Fake.fresh
              Fake.socket Fake.payload_map Fake.map_with_previousHash [])
    as (d & Hg & _ & Hp).
  - reflexivity.
  - exists d. split; [exact Hg | exact Hp].
Defined.

(** The session of [Fake.session], message by message: the greeting, then
    for each scan the immediate acknowledgement followed by its final
    result (created the first time, unchanged the second), then the
    statistics placeholder.  The store holds the file once. *)
Example session_messages :
  out (Fake.serve Fake.session @ Fake.fresh)
  = [Emit Fake.socket "server:status"
       (MapStringString
          (<["status" := "ready"]>
          (<["message" := "Server is ready to receive updates"]> ∅)));
     AckReply 7 (immediateAck Fake.scan_main_go);
     Emit Fake.socket "file:update:ack"
       (finalResponse Fake.scan_main_go "success" "File created successfully");
     AckReply 7 (immediateAck Fake.scan_main_go);
     Emit Fake.socket "file:update:ack"
       (finalResponse Fake.scan_main_go "success"
          "File is already up-to-date");
     AckReply 10
       (MapStringAny
          (<["status" := String_ "not_implemented"]>
          (<["message" :=
               String_ "Workspace stats functionality is not available."]>
             ∅)))]
  /\ goroutines (Fake.serve Fake.session @ Fake.fresh) = []
  /\ size (Fake.files (world (Fake.serve Fake.session @ Fake.fresh))) = 1%nat
  /\ workspaceCache (this (Fake.serve Fake.session @ Fake.fresh)) = ∅.
Proof. repeat split; vm_compute; reflexivity. Qed.

(** *** Runs for the branches of the reconciliation *)

Lemma invalid_api_key_witness :
  out (Fake.reconcile Fake.rename_bad_key @ Fake.fresh)
  = [Emit Fake.socket "file:update:ack"
       (finalResponse Fake.rename_bad_key "error"
          "Invalid API key: unknown key")]
  /\ new_calls Fake.fresh (Fake.reconcile Fake.rename_bad_key @ Fake.fresh)
     = [CallGetUserByApiKey "key-mallory"].
Proof.
  destruct (invalid_api_key Fake.IsNotFound Fake.fresh Fake.socket
              Fake.rename_bad_key (world Fake.fresh)
              (errors_New "unknown key")) as (Ho & Hc & _).
  - vm_compute. reflexivity.
  - split; [exact Ho | exact Hc].
Defined.

Lemma workspace_failure_witness :
  out (Fake.reconcile Fake.scan_main_go @ Fake.all_offline)
  = [Emit Fake.socket "file:update:ack"
       (finalResponse Fake.scan_main_go "error"
          "Failed to ensure workspace: failed to ensure workspace: connection refused")].
Proof.
  destruct (workspace_failure Fake.IsNotFound Fake.all_offline Fake.socket
              Fake.scan_main_go (world Fake.all_offline) Fake.alice
              (world Fake.all_offline) (errors_New "connection refused"))
    as (Ho & _).
  - vm_compute. reflexivity.
  - discriminate.
  - vm_compute. reflexivity.
  - exact Ho.
Defined.

(** [main.go] scanned again with a new hash: one update, no create. *)
Lemma changed_file_is_updated_witness :
  new_calls Fake.scanned (Fake.reconcile Fake.rescan_main_go @ Fake.scanned)
  = [CallGetUserByApiKey "key-alice";
     CallEnsureWorkspace "alice" "/home/alice/proj" "";
     CallGetByPath "alice" "alice@/home/alice/proj" "main.go";
     CallUpdate
       (domain.UpdateWorkspaceFileReq.mk "alice@/home/alice/proj/main.go"
          (Some "package main // v2") (Some "h2"))]
  /\ out (Fake.reconcile Fake.rescan_main_go @ Fake.scanned)
     = out Fake.scanned ++
         [Emit Fake.socket "file:update:ack"
            (finalResponse Fake.rescan_main_go "success"
               "File updated successfully")].
Proof.
  destruct (changed_file_is_updated Fake.IsNotFound Fake.scanned Fake.socket
              Fake.rescan_main_go (world Fake.scanned) Fake.alice
              (world Fake.scanned) Fake.proj (world Fake.scanned)
              Fake.main_go) as (Hc & Hok & _).
  - right. reflexivity.
  - vm_compute. reflexivity.
  - discriminate.
  - vm_compute. reflexivity.
  - vm_compute. reflexivity.
  - discriminate.
  - split; [exact Hc |].
    eapply Hok. vm_compute. reflexivity.
Defined.

Lemma lookup_error_is_reported_witness :
  out (Fake.reconcile Fake.scan_main_go @ Fake.files_offline)
  = [Emit Fake.socket "file:update:ack"
       (finalResponse Fake.scan_main_go "error"
          "Error checking for existing file: connection refused")]
  /\ new_calls Fake.files_offline
       (Fake.reconcile Fake.scan_main_go @ Fake.files_offline)
     = [CallGetUserByApiKey "key-alice";
        CallEnsureWorkspace "alice" "/home/alice/proj" "";
        CallGetByPath "alice" "alice@/home/alice/proj" "main.go"].
Proof.
  destruct (lookup_error_is_reported Fake.IsNotFound Fake.files_offline
              Fake.socket Fake.scan_main_go (world Fake.files_offline)
              Fake.alice (world Fake.files_offline) Fake.proj
              (world Fake.files_offline) (errors_New "connection refused"))
    as (Ho & Hc & _).
  - left. reflexivity.
  - vm_compute. reflexivity.
  - discriminate.
  - vm_compute. reflexivity.
  - vm_compute. reflexivity.
  - reflexivity.
  - split; [exact Ho | exact Hc].
Defined.

(** The first scan of [main.go], against a store that refuses writes and
    against one that accepts them. *)
Lemma missing_file_is_created_witness :
  out (Fake.reconcile Fake.scan_main_go @ Fake.readonly_fresh)
  = [Emit Fake.socket "file:update:ack"
       (finalResponse Fake.scan_main_go "error"
          "Failed to create file: read-only store")]
  /\ new_calls Fake.fresh (Fake.reconcile Fake.scan_main_go @ Fake.fresh)
     = [CallGetUserByApiKey "key-alice";
        CallEnsureWorkspace "alice" "/home/alice/proj" "";
        CallGetByPath "alice" "alice@/home/alice/proj" "main.go";
        CallCreate
          (domain.CreateWorkspaceFileReq.mk "main.go" "package main" "h1"
             "alice" "alice@/home/alice/proj");
        CallGetAndSave
          (domain.GetAndSaveReq.mk "alice" "alice@/home/alice/proj"
             [domain.FileMeta.mk "main.go" domain.CodeLanguageTypeGo
                "package main"])].
Proof.
  split.
  - destruct (missing_file_is_created Fake.IsNotFound Fake.readonly_fresh
                Fake.socket Fake.scan_main_go (world Fake.readonly_fresh)
                Fake.alice (world Fake.readonly_fresh) Fake.proj
                (world Fake.readonly_fresh) Fake.notFound) as (Hfail & _).
    + left. reflexivity.
    + vm_compute. reflexivity.
    + discriminate.
    + vm_compute. reflexivity.
    + vm_compute. reflexivity.
    + reflexivity.
    + destruct (Hfail (world Fake.readonly_fresh)
                  (errors_New "read-only store")) as [Ho _];
        [reflexivity | exact Ho].
  - destruct (missing_file_is_created Fake.IsNotFound Fake.fresh
                Fake.socket Fake.scan_main_go (world Fake.fresh)
                Fake.alice (world Fake.fresh) Fake.proj
                (world Fake.fresh) Fake.notFound) as (_ & Hok).
    + left. reflexivity.
    + vm_compute. reflexivity.
    + discriminate.
    + vm_compute. reflexivity.
    + vm_compute. reflexivity.
    + reflexivity.
    + eapply Hok. vm_compute. reflexivity.
Defined.

Lemma modified_file_is_updated_witness :
  out (Fake.reconcile Fake.modify_main_go @ Fake.readonly_scanned)
  = [Emit Fake.socket "file:update:ack"
       (finalResponse Fake.modify_main_go "error"
          "Failed to update file: read-only store")].
Proof.
  destruct (modified_file_is_updated Fake.IsNotFound Fake.readonly_scanned
              Fake.socket Fake.modify_main_go (world Fake.readonly_scanned)
              Fake.alice (world Fake.readonly_scanned) Fake.proj
              (world Fake.readonly_scanned) Fake.main_go) as (Hfail & _).
  - reflexivity.
  - vm_compute. reflexivity.
  - discriminate.
  - vm_compute. reflexivity.
  - vm_compute. reflexivity.
  - destruct (Hfail (world Fake.readonly_scanned)
                (errors_New "read-only store")) as [Ho _];
      [reflexivity | exact Ho].
Defined.

(** [main.go] deleted after its scan: the store is empty again. *)
Lemma deleted_file_is_removed_witness :
  out (Fake.reconcile Fake.delete_main_go @ Fake.scanned)
  = out Fake.scanned ++
      [Emit Fake.socket "file:update:ack"
         (finalResponse Fake.delete_main_go "success"
            "File deleted successfully")]
  /\ new_calls Fake.scanned (Fake.reconcile Fake.delete_main_go @ Fake.scanned)
     = [CallGetUserByApiKey "key-alice";
        CallEnsureWorkspace "alice" "/home/alice/proj" "";
        CallGetByPath "alice" "alice@/home/alice/proj" "main.go";
        CallDelete "alice@/home/alice/proj/main.go"].
Proof.
  destruct (deleted_file_is_removed Fake.IsNotFound Fake.scanned Fake.socket
              Fake.delete_main_go (world Fake.scanned) Fake.alice
              (world Fake.scanned) Fake.proj) as (_ & Hok & _).
  - reflexivity.
  - vm_compute. reflexivity.
  - discriminate.
  - vm_compute. reflexivity.
  - eapply (Hok (world Fake.scanned) Fake.main_go).
    + vm_compute. reflexivity.
    + vm_compute. reflexivity.
Defined.

Lemma one_write_per_notification_witness :
  exists before write,
    new_calls Fake.fresh (Fake.reconcile Fake.scan_main_go @ Fake.fresh)
    = before ++
        [write;
         CallGetAndSave
           (domain.GetAndSaveReq.mk "alice" "alice@/home/alice/proj"
              [domain.FileMeta.mk "main.go" domain.CodeLanguageTypeGo
                 "package main"])]
    /\ is_write write = true.
Proof.
  destruct (one_write_per_notification Fake.IsNotFound Fake.fresh Fake.socket
              Fake.scan_main_go) as (_ & _ & Hindex).
  eapply Hindex. vm_compute. auto 10.
Defined.

(** *** Runs for the handlers of a connection *)

(** A number as payload of the file-change event. *)
Lemma other_payload_shapes_are_rejected_witness :
  out (Fake.receive Fake.payload_number @ Fake.fresh)
  = [AckReply 12
       (error_response "Invalid data format - expected string or object")]
  /\ goroutines (Fake.receive Fake.payload_number @ Fake.fresh) = [].
Proof.
  destruct (other_payload_shapes_are_rejected (fun bits => bits)
              Fake.json_Unmarshal_FileUpdateData Fake.fresh Fake.socket
              Fake.payload_number) as (_ & Hshape).
  apply (Hshape (Float64 0) []).
  - reflexivity.
  - discriminate.
  - discriminate.
Defined.


(** A heartbeat at clock reading 0. *)
Lemma heartbeat_exchange_witness :
  out (Fake.heartbeat Fake.payload_empty_object @ Fake.fresh)
  = [AckReply 13
       (MapStringAny
          (<["status" := String_ "ok"]>
          (<["serverTime" := Int64 0]>
          (<["socketId" := String_ "s1"]> ∅))))]
  /\ Fake.clock (world (Fake.heartbeat Fake.payload_empty_object @ Fake.fresh))
     = 1%Z.
Proof.
  destruct (heartbeat_exchange Fake.json_Unmarshal_HeartbeatData Fake.time_Now
              Fake.fresh Fake.socket Fake.payload_empty_object)
    as (_ & _ & Hok & _).
  destruct (Hok "{}" [] (HeartbeatData.mk "" 0 "")
              (fst (Fake.time_Now (world Fake.fresh))) 0%Z)
    as [Ho Hw].
  - reflexivity.
  - reflexivity.
  - reflexivity.
  - split; [exact Ho |]. unfold Fake.heartbeat. rewrite Hw. reflexivity.
Defined.

(** A ping: the clock is read twice. *)
Lemma ping_exchange_witness :
  out (Fake.ping Fake.payload_empty_object @ Fake.fresh)
  = [Emit Fake.socket "test:pong"
       (MapStringAny
          (<["timestamp" := Int64 0]>
          (<["serverTime" := String_ "1970-01-01T00:00:00Z"]>
          (<["message" := String_ "Pong from MonkeyCode server"]>
          (<["receivedPing" := Struct_TestPingData (TestPingData.mk 0 "" "")]>
          (<["socketId" := String_ "s1"]>
          (<["serverStatus" := String_ "ok"]> ∅)))))))]
  /\ Fake.clock (world (Fake.ping Fake.payload_empty_object @ Fake.fresh))
     = 2%Z.
Proof.
  destruct (ping_exchange Fake.json_Unmarshal_TestPingData Fake.time_Now
              (fun t => "1970-01-01T00:00:00Z") Fake.fresh Fake.socket
              Fake.payload_empty_object) as (Hok & _).
  destruct (Hok "{}" [] (TestPingData.mk 0 "" "")
              (fst (Fake.time_Now (world Fake.fresh))) 0%Z
              (fst (Fake.time_Now (fst (Fake.time_Now (world Fake.fresh)))))
              1%Z) as [Ho Hw].
  - reflexivity.
  - reflexivity.
  - reflexivity.
  - reflexivity.
  - split; [exact Ho |]. unfold Fake.ping. rewrite Hw. reflexivity.
Defined.

(** The map of [Fake.payload_map]: "id", "event" and "hash" are copied,
    the path is missing and stays empty. *)
Lemma map_fields_are_copied_witness :
  exists d,
    goroutines
      (handleFileUpdateFromObject (fun bits => bits) Fake.socket
         Fake.payload_map @ Fake.fresh) = [(Fake.socket, d)]
    /\ FileUpdateData.ID d = "n7"
    /\ FileUpdateData.Event d = "modified"
    /\ FileUpdateData.Hash d = "h2"
    /\ FileUpdateData.FilePath d = "".
Proof.
  destruct (map_fields_are_copied (fun bits => bits) Fake.fresh Fake.socket
              Fake.payload_map Fake.map_with_previousHash [])
    as (d & Hg & _ & Hid & Hpath & Hevent & Hhash & _).
  - reflexivity.
  - exists d. split; [exact Hg |].
    split; [rewrite Hid; vm_compute; reflexivity |].
    split; [rewrite Hevent; vm_compute; reflexivity |].
    split; [rewrite Hhash; vm_compute; reflexivity |].
    rewrite Hpath. vm_compute. reflexivity.
Defined.

Lemma extension_is_text_after_last_dot_witness :
  getFileExtension "src/app.test.tsx" = "tsx"
  /\ getFileExtension "Makefile" = "".
Proof.
  destruct (extension_is_text_after_last_dot "src/app.test.tsx")
    as (_ & _ & Hjoin).
  destruct (extension_is_text_after_last_dot "Makefile") as (_ & Hnone & _).
  split.
  - apply (Hjoin "src/app.test" "tsx"); reflexivity.
  - apply Hnone. reflexivity.
Defined.

Lemma language_of_path_witness :
  getFileLanguage (getFileExtension "Makefile") = domain.CodeLanguageTypeLit ""
  /\ getFileLanguage (getFileExtension "lib/vec.cxx")
     = domain.CodeLanguageTypeCpp.
Proof.
  destruct (language_of_path "Makefile") as (Hnone & _).
  destruct (language_of_path "lib/vec.cxx") as (_ & _ & Hcpp).
  split.
  - apply Hnone. reflexivity.
  - apply (Hcpp "lib/vec" "cxx"); [reflexivity |].
    apply list_elem_of_further, list_elem_of_further, list_elem_of_here.
Defined.
